(** * Price normalizer of the benchmarking dashboard (src/app.py)

    Shallow embedding of [limpar_nomes_colunas] and
    [processar_valores_monetarios] (src/app.py, lines 74-129), of the
    functions around them ([categorizar_faixa_preco], [formatar_reais], the
    upload handler, the launch flag) and of the parts of pandas they call.

    Modelling choices.
    - Text is a [string] whose characters are the Unicode code points below
      256.  Python's whitespace among them ([str.isspace], the characters
      [str.strip] removes) is 9-13, 28-32, 133 and 160; [str.lower] acts on
      A-Z and on the capital letters 192-222 (215 is the multiplication
      sign).
    - A column label is a text.  A table has at least one column where a
      statement says that a call returns: what [pd.read_excel] gives for an
      empty sheet has no text labels.
    - A numeric cell holds a float64: a finite value, written as the exact
      decimal [mantissa / 10 ^ escala] (every finite float has one), an
      infinity, or the missing marker (the float not-a-number).  A zero has
      no sign.  Comparisons are exact; a product is the exact product
      rounded to the nearest float64, ties to even ([F64.arredondar]), an
      infinity beyond the largest float.  A numeric column is taken as
      float64: pandas keeps an all-integer column as int64, whose products
      are the same as long as they stay below 2 ^ 53.
    - What pandas reads from a text ([pd.to_numeric(_, errors='coerce')] on
      one cell) and the text Python prints for a float ([str]) are
      parameters, the fields [ler] and [escrever] of [Conversoes]; the only
      fact assumed is that the text ["nan"] is read as the missing marker.
      [conversoes_decimais] is one instance, used to run the program on
      example tables: it reads plain decimal literals, correctly rounded,
      and prints a float in full positional notation.
    - A DataFrame is the list of its labelled columns; the table object
      lives in a store, because the source assigns to [df.columns] and to
      [df[col]] of the object it was given.
    - Selecting [df[col]] when the label occurs twice yields a sub-frame,
      which has no [.str] accessor: the run ends with [AttributeError]. *)

From stdpp Require Import gmap list.
From Stdlib Require Import ZArith Lia Bool Ascii String.

Local Open Scope Z_scope.

(** ** Text operations used by the source *)

Module Str.

Local Open Scope string_scope.

(** [str.isspace] on a code point below 256. *)
Definition is_space (c : ascii) : bool :=
  let n := nat_of_ascii c in
  ((9 <=? n)%nat && (n <=? 13)%nat) || ((28 <=? n)%nat && (n <=? 32)%nat)
  || (n =? 133)%nat || (n =? 160)%nat.

Fixpoint lstrip (s : string) : string :=
  match s with
  | EmptyString => EmptyString
  | String c s' => if is_space c then lstrip s' else s
  end.

Fixpoint rstrip (s : string) : string :=
  match s with
  | EmptyString => EmptyString
  | String c s' =>
      match rstrip s' with
      | EmptyString => if is_space c then EmptyString else String c EmptyString
      | r => String c r
      end
  end.

(** [s.strip()] *)
Definition strip (s : string) : string := rstrip (lstrip s).

(** [s.replace(old, new)] for a non-empty [old]: occurrences are replaced
    from the left and do not overlap; [skip] counts the characters of a
    match still to be dropped. *)
Fixpoint replace_from (skip : nat) (old new s : string) : string :=
  match s with
  | EmptyString => EmptyString
  | String c s' =>
      match skip with
      | S k => replace_from k old new s'
      | O =>
          if prefix old s
          then new ++ replace_from (Nat.pred (String.length old)) old new s'
          else String c (replace_from O old new s')
      end
  end.

Definition replace (old new s : string) : string := replace_from O old new s.

(** Substring test: [pat in s]. *)
Fixpoint contains (pat s : string) : bool :=
  prefix pat s ||
  match s with
  | EmptyString => false
  | String _ s' => contains pat s'
  end.

End Str.

(** ** Numbers *)

(** The finite decimal [mantissa / 10 ^ escala]. *)
Record Dec : Type := MkDec { mantissa : Z; escala : nat }.

Definition pow10 (e : nat) : Z := 10 ^ Z.of_nat e.

(** Lowest terms: trailing zeros of the fractional part are dropped. *)
Fixpoint norm_aux (m : Z) (e : nat) : Dec :=
  match e with
  | O => MkDec m O
  | S e' => if m mod 10 =? 0 then norm_aux (m / 10) e' else MkDec m e
  end.

Definition norm (d : Dec) : Dec := norm_aux (mantissa d) (escala d).

Definition dec_of_Z (z : Z) : Dec := MkDec z O.

(** [a < b] on values, by cross multiplication. *)
Definition dec_ltb (a b : Dec) : bool :=
  mantissa a * pow10 (escala b) <? mantissa b * pow10 (escala a).

Definition dez : Dec := dec_of_Z 10.
Definition cem : Dec := dec_of_Z 100.
Definition mil : Dec := dec_of_Z 1000.

(** ** Plain decimal literals

    Printing and reading numbers in positional notation: the text of an
    integer ([Flt.str_int]) and the conversions of [conversoes_decimais]. *)

Module Num.

Definition digit_char (d : Z) : ascii := ascii_of_nat (48 + Z.to_nat d).

Definition digit_val (c : ascii) : option Z :=
  let n := Z.of_nat (nat_of_ascii c) in
  if (48 <=? n) && (n <=? 57) then Some (n - 48) else None.

(** The [k] low decimal digits of [n], most significant first, before [acc]. *)
Fixpoint put_fixed (k : nat) (n : Z) (acc : string) : string :=
  match k with
  | O => acc
  | S k' => put_fixed k' (n / 10) (String (digit_char (n mod 10)) acc)
  end.

(** Number of decimal digits of [n >= 0] (1 for 0). *)
Fixpoint width_aux (fuel : nat) (n : Z) : nat :=
  match fuel with
  | O => 1%nat
  | S f => if n <? 10 then 1%nat else S (width_aux f (n / 10))
  end.

Definition width (n : Z) : nat := width_aux (Z.to_nat (Z.log2 n)) n.

Definition put_nat (n : Z) : string := put_fixed (width n) n EmptyString.

(** Positional rendering: sign, integer part, point, fractional part
    (["0"] when there is none), e.g. ["1200.0"], ["-0.005"]. *)
Definition repr (d : Dec) : string :=
  let m := Z.abs (mantissa d) in
  let p := pow10 (escala d) in
  let sinal := if mantissa d <? 0 then "-"%string else EmptyString in
  let frac :=
    match escala d with
    | O => "0"%string
    | S _ => put_fixed (escala d) (m mod p) EmptyString
    end in
  (sinal ++ put_nat (m / p) ++ "." ++ frac)%string.

(** Reads a run of digits into [acc]; fails on any other character. *)
Fixpoint get_digits (s : string) (acc : Z) : option Z :=
  match s with
  | EmptyString => Some acc
  | String c s' =>
      match digit_val c with
      | Some d => get_digits s' (10 * acc + d)
      | None => None
      end
  end.

(** Splits at the first point: integer digits and fractional digits. *)
Fixpoint split_point (s : string) : string * string :=
  match s with
  | EmptyString => (EmptyString, EmptyString)
  | String c s' =>
      if Ascii.eqb c "."%char then (EmptyString, s')
      else let '(a, b) := split_point s' in (String c a, b)
  end.

Definition unsigned (s : string) : option Dec :=
  let '(ip, fp) := split_point s in
  if (String.length ip + String.length fp =? 0)%nat then None
  else
    match get_digits ip 0 with
    | Some i =>
        match get_digits fp 0 with
        | Some f => Some (norm (MkDec (i * pow10 (String.length fp) + f)
                                      (String.length fp)))
        | None => None
        end
    | None => None
    end.

Definition negate (d : Dec) : Dec := MkDec (- mantissa d) (escala d).

(** Plain decimal literal with an optional sign. *)
Definition parse (s : string) : option Dec :=
  match s with
  | String "-"%char s' => option_map negate (unsigned s')
  | String "+"%char s' => unsigned s'
  | _ => unsigned s
  end.

End Num.

(** ** Floats *)

(** A float64: finite (its exact decimal value), infinite or
    not-a-number. *)
Inductive flutuante : Type :=
  | Finito (d : Dec)
  | Infinito (negativo : bool)
  | NaoNumero.

(** Rounding to binary64. *)
Module F64.

(** [n / (d * 2 ^ e)] as a fraction of two integers. *)
Definition fracao (n d e : Z) : Z * Z :=
  if 0 <=? e then (n, d * 2 ^ e) else (n * 2 ^ (- e), d).

(** The integer nearest to [a / b], the even one of two that are equally
    near ([0 <= a], [0 < b]). *)
Definition inteiro_proximo (a b : Z) : Z :=
  let q := a / b in
  let r := a mod b in
  if 2 * r <? b then q
  else if b <? 2 * r then q + 1
  else if Z.even q then q else q + 1.

(** The binary exponent at which [n / d] has a 53-bit significand, and
    at least -1074, the exponent of the subnormal floats. *)
Definition expoente (n d : Z) : Z :=
  let e := Z.log2 n - Z.log2 d - 52 in
  let '(a, b) := fracao n d e in
  Z.max (if a / b <? 2 ^ 52 then e - 1 else e) (-1074).

(** [m * 2 ^ e] as a decimal in lowest terms. *)
Definition decimal (m e : Z) : Dec :=
  if 0 <=? e then MkDec (m * 2 ^ e) 0
  else norm (MkDec (m * 5 ^ (- e)) (Z.to_nat (- e))).

(** The float64 nearest to a decimal, ties to even; an infinity when the
    rounded value is beyond the largest float. *)
Definition arredondar (x : Dec) : flutuante :=
  let n := Z.abs (mantissa x) in
  if n =? 0 then Finito (MkDec 0 0)
  else
    let d := pow10 (escala x) in
    let e := expoente n d in
    let '(a, b) := fracao n d e in
    let m := inteiro_proximo a b in
    if (971 <? e) || ((e =? 971) && (2 ^ 53 <=? m))
    then Infinito (mantissa x <? 0)
    else Finito (decimal (if mantissa x <? 0 then - m else m) e).

End F64.

(** Comparisons and products of floats; every comparison is false on
    not-a-number. *)
Module Flt.

(** [k <= x] for an integer literal [k]. *)
Definition le_int (k : Z) (x : flutuante) : bool :=
  match x with
  | Finito d => negb (dec_ltb d (dec_of_Z k))
  | Infinito negativo => negb negativo
  | NaoNumero => false
  end.

(** [x < k] *)
Definition lt_int (x : flutuante) (k : Z) : bool :=
  match x with
  | Finito d => dec_ltb d (dec_of_Z k)
  | Infinito negativo => negativo
  | NaoNumero => false
  end.

(** [x >= k] *)
Definition ge_int (x : flutuante) (k : Z) : bool :=
  match x with
  | Finito d => negb (dec_ltb d (dec_of_Z k))
  | Infinito negativo => negb negativo
  | NaoNumero => false
  end.

(** [str(k)] of an integer. *)
Definition str_int (k : Z) : string :=
  if k <? 0 then String "-" (Num.put_nat (- k)) else Num.put_nat k.

(** [a < b] *)
Definition ltb (a b : flutuante) : bool :=
  match a, b with
  | Finito x, Finito y => dec_ltb x y
  | Finito _, Infinito negativo => negb negativo
  | Infinito negativo, Finito _ => negativo
  | Infinito n1, Infinito n2 => n1 && negb n2
  | _, _ => false
  end.

(** The larger of two numbers. *)
Definition max (a b : flutuante) : flutuante := if ltb a b then b else a.

(** [a * b] *)
Definition mul (a b : flutuante) : flutuante :=
  match a, b with
  | Finito x, Finito y =>
      F64.arredondar (MkDec (mantissa x * mantissa y) (escala x + escala y))
  | Finito x, Infinito n | Infinito n, Finito x =>
      if mantissa x =? 0 then NaoNumero
      else Infinito (xorb n (mantissa x <? 0))
  | Infinito n1, Infinito n2 => Infinito (xorb n1 n2)
  | _, _ => NaoNumero
  end.

End Flt.

(** ** Cells, series and frames *)

(** A cell of an object or float column: text, a finite number, an
    infinity, or the missing marker. *)
Inductive celula : Type :=
  | Texto (s : string)
  | Numero (d : Dec)
  | Inf (negativo : bool)
  | NaN.

Abbreviation Series := (list celula).

(** Labelled columns, in order. *)
Abbreviation DataFrame := (list (string * Series)).

Inductive excecao : Type := NameError | KeyError | AttributeError.

Inductive resultado (A : Type) : Type :=
  | Ok (a : A)
  | Erro (e : excecao).
Arguments Ok {A} a.
Arguments Erro {A} e.

(** The cell that holds a float. *)
Definition celula_de (x : flutuante) : celula :=
  match x with
  | Finito d => Numero d
  | Infinito negativo => Inf negativo
  | NaoNumero => NaN
  end.

(** The float a numeric cell holds. *)
Definition flutuante_de (valor : celula) : option flutuante :=
  match valor with
  | Texto _ => None
  | Numero d => Some (Finito d)
  | Inf negativo => Some (Infinito negativo)
  | NaN => Some NaoNumero
  end.

(** Conversions between text and floats that pandas and Python supply:
    [ler s] is what [pd.to_numeric(_, errors='coerce')] gives for a cell
    holding the text [s] (not-a-number when it reads no number), and
    [escrever d] is [str(x)] of the finite float [x] of value [d]. *)
Class Conversoes : Type := {
  ler : string -> flutuante;
  escrever : Dec -> string;
  ler_nan : ler "nan" = NaoNumero
}.

(** Element-wise pandas operations. *)
Module Pd.

Section Conversions.

Context {C : Conversoes}.

(** [str(x)] of a cell value. *)
Definition str_of (c : celula) : string :=
  match c with
  | Texto s => s
  | Numero d => escrever d
  | Inf negativo => if negativo then "-inf" else "inf"
  | NaN => "nan"
  end.

(** [Series.astype(str)] *)
Definition astype_str (c : celula) : celula := Texto (str_of c).

(** [pd.to_numeric(_, errors='coerce')] *)
Definition to_numeric (c : celula) : celula :=
  match c with
  | Texto s => celula_de (ler s)
  | other => other
  end.

End Conversions.

(** A [.str] method: cells that are not text become missing. *)
Definition str_map (f : string -> string) (c : celula) : celula :=
  match c with
  | Texto s => Texto (f s)
  | _ => NaN
  end.

(** [.str.contains(pat)] for a pattern that matches one literal text. *)
Definition str_contains (pat : string) (c : celula) : bool :=
  match c with
  | Texto s => Str.contains pat s
  | _ => false
  end.

(** [_ < k]: false on a missing cell. *)
Definition lt (k : Dec) (c : celula) : bool :=
  match flutuante_de c with
  | Some x => Flt.ltb x (Finito k)
  | None => false
  end.

(** [_ * k]: a missing cell stays missing (text does not occur in a
    column that went through [to_numeric]). *)
Definition mul (k : Dec) (c : celula) : celula :=
  match flutuante_de c with
  | Some x => celula_de (Flt.mul x (Finito k))
  | None => c
  end.

(** [Series.dropna()], as the list of the numbers left. *)
Fixpoint dropna (s : Series) : list flutuante :=
  match s with
  | [] => []
  | Numero d :: s' => Finito d :: dropna s'
  | Inf negativo :: s' => Infinito negativo :: dropna s'
  | _ :: s' => dropna s'
  end.

(** [(s < k).any()] and [(s > k).any()] on the numbers left. *)
Definition any_lt (k : Dec) (l : list flutuante) : bool :=
  existsb (fun x => Flt.ltb x (Finito k)) l.
Definition any_gt (k : Dec) (l : list flutuante) : bool :=
  existsb (fun x => Flt.ltb (Finito k) x) l.

(** [s.max()] of a series with at least one number. *)
Definition max (l : list flutuante) : option flutuante :=
  match l with
  | [] => None
  | x :: l' => Some (fold_left Flt.max l' x)
  end.
(** [df.loc[mask, col] = f(df.loc[mask, col])] for an element-wise [f]:
    the rows selected by [mask] are rewritten, the others kept. *)
Definition onde (mask : list bool) (f : celula -> celula) (s : Series)
  : Series :=
  zip_with (fun (b : bool) c => if b then f c else c) mask s.

(** [df.columns] *)
Definition columns (d : DataFrame) : list string := map fst d.

(** [df.columns = nomes] *)
Definition set_columns (nomes : list string) (d : DataFrame) : DataFrame :=
  zip_with (fun n (c : string * Series) => (n, snd c)) nomes d.

(** [col in df.columns] *)
Definition tem_coluna (col : string) (d : DataFrame) : bool :=
  existsb (String.eqb col) (columns d).

Definition selecionar (col : string) (d : DataFrame) : list Series :=
  map snd (List.filter (fun c => String.eqb col (fst c)) d).

(** [df[col]] used as a Series: a label that occurs twice selects a
    sub-frame, on which the [.str] accessor is missing. *)
Definition getitem (col : string) (d : DataFrame) : resultado Series :=
  match selecionar col d with
  | [] => Erro KeyError
  | [s] => Ok s
  | _ => Erro AttributeError
  end.

(** [df[col] = s]: every column labelled [col] is replaced; a new label is
    appended. *)
Definition setitem (col : string) (s : Series) (d : DataFrame) : DataFrame :=
  if tem_coluna col d
  then map (fun c => if String.eqb col (fst c) then (fst c, s) else c) d
  else d ++ [(col, s)].

End Pd.

(** ** The store and the monad of the program *)

Abbreviation ref := positive.

Abbreviation heap := (gmap positive DataFrame).

Definition M (A : Type) : Type := heap -> resultado (A * heap).

Definition ret {A} (a : A) : M A := fun h => Ok (a, h).

Definition bind {A B} (m : M A) (k : A -> M B) : M B :=
  fun h =>
    match m h with
    | Ok (a, h') => k a h'
    | Erro e => Erro e
    end.

Definition raise {A} (e : excecao) : M A := fun _ => Erro e.

Notation "'let*' x ':=' m 'in' k" := (bind m (fun x => k))
  (at level 10, x name, m at level 100, k at level 200).

(** Reads the frame behind a reference. *)
Definition deref (df : ref) : M DataFrame :=
  fun h => match h !! df with Some d => Ok (d, h) | None => Erro NameError end.

(** Updates the frame behind a reference, in place. *)
Definition mutate (df : ref) (f : DataFrame -> DataFrame) : M unit :=
  let* d := deref df in fun h => Ok (tt, <[df := f d]> h).

Definition get_columns (df : ref) : M (list string) :=
  let* d := deref df in ret (Pd.columns d).

Definition getitem (df : ref) (col : string) : M Series :=
  let* d := deref df in
  match Pd.getitem col d with Ok s => ret s | Erro e => raise e end.

Definition setitem (df : ref) (col : string) (s : Series) : M unit :=
  mutate df (Pd.setitem col s).

Fixpoint for_each {A} (l : list A) (body : A -> M unit) : M unit :=
  match l with
  | [] => ret tt
  | x :: l' => let* _ := body x in for_each l' body
  end.

(** ** The program (src/app.py, lines 74-129) *)

(** [limpar_nomes_colunas]: assigns the stripped labels to the frame it
    was given and returns that same frame. *)
Definition limpar_nomes_colunas (df : ref) : M ref :=
  let* cols := get_columns df in
  let* _ := mutate df (Pd.set_columns (map Str.strip cols)) in
  ret df.

Definition colunas_preco : list string :=
  ["Initial_Price"%string; "Final_Price"%string].

(** Lines 113-127: the correction of a column that holds numbers. *)
Definition corrigir_magnitude (df : ref) (col : string) : M unit :=
  let* s := getitem df col in
  let valores_validos := Pd.dropna s in
  if (0 <? List.length valores_validos)%nat then
    let tem_valores_pequenos := Pd.any_lt dez valores_validos in
    let tem_valores_grandes := Pd.any_gt cem valores_validos in
    if tem_valores_pequenos && tem_valores_grandes then
      let* m := getitem df col in
      let* s := getitem df col in
      setitem df col (Pd.onde (map (Pd.lt dez) m) (Pd.mul mil) s)
    else
      match Pd.max valores_validos with
      | Some mx =>
          if Flt.ltb mx (Finito dez) then
            let* s := getitem df col in
            setitem df col (map (Pd.mul mil) s)
          else ret tt
      | None => ret tt
      end
  else ret tt.

Section Programa.

Context {C : Conversoes}.

(** Body of the loop, lines 92-127, for a label present in the frame. *)
Definition processar_coluna (df : ref) (col : string) : M unit :=
  (* 93 *)
  let* s := getitem df col in
  let* _ := setitem df col (map Pd.astype_str s) in
  (* 96-98 *)
  let* s := getitem df col in
  let* _ := setitem df col (map (Pd.str_map (Str.replace "R$" "")) s) in
  let* s := getitem df col in
  let* _ := setitem df col (map (Pd.str_map (Str.replace "r$" "")) s) in
  let* s := getitem df col in
  let* _ := setitem df col (map (Pd.str_map Str.strip) s) in
  (* 102-104 *)
  let* s1 := getitem df col in
  let* s2 := getitem df col in
  let mask_br :=
    zip_with andb (map (Pd.str_contains ",") s1)
                  (map (Pd.str_contains ".") s2) in
  let* s := getitem df col in
  let* _ :=
    setitem df col (Pd.onde mask_br (Pd.str_map (Str.replace "." "")) s) in
  let* s := getitem df col in
  let* _ :=
    setitem df col (Pd.onde mask_br (Pd.str_map (Str.replace "," ".")) s) in
  (* 107-108 *)
  let* s1 := getitem df col in
  let* s2 := getitem df col in
  let mask_virgula :=
    zip_with andb (map (Pd.str_contains ",") s1)
                  (map (fun c => negb (Pd.str_contains "." c)) s2) in
  let* s := getitem df col in
  let* _ :=
    setitem df col
      (Pd.onde mask_virgula (Pd.str_map (Str.replace "," ".")) s) in
  (* 111 *)
  let* s := getitem df col in
  let* _ := setitem df col (map Pd.to_numeric s) in
  (* 113-127 *)
  corrigir_magnitude df col.

(** Lines 91-127: one turn of the loop of line 90. *)
Definition corpo_laco (df : ref) (col : string) : M unit :=
  let* cols := get_columns df in
  if existsb (String.eqb col) cols then processar_coluna df col
  else ret tt.

(** [processar_valores_monetarios], lines 80-129. *)
Definition processar_valores_monetarios (df : ref) : M ref :=
  let* df := limpar_nomes_colunas df in
  let* _ := for_each colunas_preco (corpo_laco df) in
  ret df.

(** The table a caller gets back from one call on a table it holds at
    some reference. *)
Definition executar (d : DataFrame) : resultado DataFrame :=
  match processar_valores_monetarios 1%positive {[ 1%positive := d ]} with
  | Ok (r, h) =>
      match h !! r with Some d' => Ok d' | None => Erro NameError end
  | Erro e => Erro e
  end.

End Programa.

(** ** What the program computes, cell by cell and column by column *)

(** Lines 96-98 on the text of one cell. *)
Definition limpar_texto (s : string) : string :=
  Str.strip (Str.replace "r$" "" (Str.replace "R$" "" s)).

(** Lines 102-108 on the text of one cell. *)
Definition separadores (s : string) : string :=
  if Str.contains "," s && Str.contains "." s
  then Str.replace "," "." (Str.replace "." "" s)
  else if Str.contains "," s && negb (Str.contains "." s)
  then Str.replace "," "." s
  else s.

(** Lines 113-127 on a column of numbers and missing cells. *)
Definition magnitude (s : Series) : Series :=
  let v := Pd.dropna s in
  if (0 <? List.length v)%nat then
    if Pd.any_lt dez v && Pd.any_gt cem v
    then Pd.onde (map (Pd.lt dez) s) (Pd.mul mil) s
    else
      match Pd.max v with
      | Some mx => if Flt.ltb mx (Finito dez) then map (Pd.mul mil) s else s
      | None => s
      end
  else s.

(** The frame after line 76. *)
Definition nomes_limpos (d : DataFrame) : DataFrame :=
  map (fun c : string * Series => (Str.strip (fst c), snd c)) d.

(** Each recognised price label occurs at most once among the stripped
    labels: [df[col]] is then a Series. *)
Definition rotulos_unicos (d : DataFrame) : Prop :=
  forall col, In col colunas_preco ->
    (List.length (Pd.selecionar col (nomes_limpos d)) <= 1)%nat.

Definition eh_preco (n : string) : bool :=
  existsb (String.eqb n) colunas_preco.

Section Caracterizacao.

Context {C : Conversoes}.

(** Lines 93-111 on one cell: the float read from its cleaned text. *)
Definition analisar (c : celula) : flutuante :=
  ler (separadores (limpar_texto (Pd.str_of c))).

(** Lines 93-127 on one column. *)
Definition coluna_preco (s : Series) : Series :=
  magnitude (map (fun c => celula_de (analisar c)) s).

(** One turn of the loop of line 90 on the frame. *)
Definition passo_coluna (col : string) (d : DataFrame)
  : resultado DataFrame :=
  if Pd.tem_coluna col d then
    match Pd.getitem col d with
    | Ok s => Ok (Pd.setitem col (coluna_preco s) d)
    | Erro e => Erro e
    end
  else Ok d.

Fixpoint passos (cols : list string) (d : DataFrame) : resultado DataFrame :=
  match cols with
  | [] => Ok d
  | col :: cols' =>
      match passo_coluna col d with
      | Ok d' => passos cols' d'
      | Erro e => Erro e
      end
  end.

Definition normalizar (d : DataFrame) : resultado DataFrame :=
  passos colunas_preco (nomes_limpos d).

(** A column of the frame a successful call leaves behind. *)
Definition coluna_saida (c : string * Series) : string * Series :=
  let n := Str.strip (fst c) in
  (n, if eh_preco n then coluna_preco (snd c) else snd c).

Definition saida (d : DataFrame) : DataFrame := map coluna_saida d.

(** One turn of the loop on a column whose label occurs once. *)
Definition aplicar (col : string) (c : string * Series) : string * Series :=
  if String.eqb col (fst c) then (fst c, coluna_preco (snd c)) else c.

End Caracterizacao.

(** ** Predicates and auxiliary functions of the statements *)

(** Every character of the text satisfies [P]. *)
Fixpoint todos (P : ascii -> bool) (s : string) : bool :=
  match s with
  | EmptyString => true
  | String c s' => P c && todos P s'
  end.

(** Characters of a number printed in positional notation. *)
Definition numchar (c : ascii) : bool :=
  match Num.digit_val c with
  | Some _ => true
  | None => Ascii.eqb c "-"%char || Ascii.eqb c "."%char
  end.



(** Lines 102-108 on a text cell. *)
Definition passo_separadores (c : celula) : celula :=
  let c1 :=
    if Pd.str_contains "," c && Pd.str_contains "." c
    then Pd.str_map (Str.replace "," ".") (Pd.str_map (Str.replace "." "") c)
    else c in
  if Pd.str_contains "," c1 && negb (Pd.str_contains "." c1)
  then Pd.str_map (Str.replace "," ".") c1
  else c1.

(** What the correction does to one cell, given the numbers of the column. *)
Definition corretor (v : list flutuante) (c : celula) : celula :=
  if (0 <? List.length v)%nat then
    if Pd.any_lt dez v && Pd.any_gt cem v
    then (if Pd.lt dez c then Pd.mul mil c else c)
    else
      match Pd.max v with
      | Some mx => if Flt.ltb mx (Finito dez) then Pd.mul mil c else c
      | None => c
      end
  else c.

(** A decidable form of [rotulos_unicos]. *)
Definition rotulos_unicos_b (d : DataFrame) : bool :=
  forallb
    (fun col => (List.length (Pd.selecionar col (nomes_limpos d)) <=? 1)%nat)
    colunas_preco.

(** No text in the column: numbers and missing cells only. *)
Definition numerica (s : Series) : Prop :=
  forall c, In c s ->
    c = NaN \/ (exists x, c = Numero x) \/ (exists negativo, c = Inf negativo).

(** A float is a number: it is not not-a-number. *)
Definition eh_numero (x : flutuante) : bool :=
  match x with NaoNumero => false | _ => true end.

(** ** Conversions for the examples *)

(** Reads a plain decimal literal as the float nearest to it. *)
Definition ler_decimal (s : string) : flutuante :=
  match Num.parse s with
  | Some d => F64.arredondar d
  | None => NaoNumero
  end.

(** Plain decimal literals read with correct rounding; floats printed in
    full positional notation. *)
Definition conversoes_decimais : Conversoes :=
  {| ler := ler_decimal; escrever := Num.repr; ler_nan := eq_refl |}.

(** ** Example tables *)

Module Exemplos.

Definition d5 (z : Z) : celula := Numero (dec_of_Z z).

(** The cell holding the float nearest to [m / 10 ^ e]. *)
Definition f64 (m : Z) (e : nat) : celula :=
  celula_de (F64.arredondar (MkDec m e)).

(** Free-form prices under a label with stray blanks. *)
Definition catalogo : DataFrame :=
  [(" Initial_Price "%string,
    [Texto "R$ 5,00"; Texto "1.200,00"; Texto "N/A"; NaN; Texto "1200.00"]);
   ("Brand "%string,
    [Texto "a"; Texto " b"; Texto "c"; NaN; Texto "e"]);
   ("Final_Price"%string,
    [Texto "150"; Texto "300"; Texto "1200,00"; Texto "r$ 50,00"; Texto "7"])].

(** The two-column table of the spec. *)
Definition duas_colunas : DataFrame :=
  [("Initial_Price"%string, [Texto "5"; Texto "200"]);
   ("Final_Price"%string, [Texto "150"; Texto "300"])].

Definition pequenos : DataFrame :=
  [("Final_Price"%string, [Texto "1"; Texto "2"; Texto "3"; Texto "N/A"])].


(** A price label that occurs twice once the labels are stripped. *)
Definition rotulo_repetido : DataFrame :=
  [(" Final_Price"%string, [Texto "N/A"]);
   ("Final_Price"%string, [Texto "2"])].


(** A table with the four required columns. *)
Definition completa : DataFrame :=
  [(" Brand"%string, [Texto "a"]);
   ("Product_Category"%string, [Texto "c"]);
   ("Initial_Price "%string, [Texto "R$ 1.200,00"]);
   ("Final_Price"%string, [Texto "999,90"])].

(** Labels and cells with a no-break space (code point 160). *)
Definition espaco_rigido : DataFrame :=
  [(String "160" "Final_Price", [Texto (String "160" "7")]);
   (String "B" (String "160" ""), [Texto "x"])].

End Exemplos.

(** ** Price bands (src/app.py, lines 141-157 and 638-642) *)

(** Line 143: the bands, lower bound included, upper bound excluded. *)
Definition faixas : list (Z * Z) :=
  [(0, 50); (50, 100); (100, 150); (150, 200); (200, 250);
   (250, 300); (300, 350); (350, 400); (400, 450); (450, 500);
   (500, 550); (550, 600); (600, 650); (650, 700); (700, 750);
   (750, 800); (800, 850); (850, 900); (900, 950); (950, 1000)].

(** Line 638: the order in which the comparison chart lists the bands. *)
Definition ordem_faixas : list string :=
  ["0-50"; "50-100"; "100-150"; "150-200"; "200-250"; "250-300";
   "300-350"; "350-400"; "400-450"; "450-500"; "500-550"; "550-600";
   "600-650"; "650-700"; "700-750"; "750-800"; "800-850"; "850-900";
   "900-950"; "950-1000"; "1000+"]%string.

(** Bands [a], [a+1], ... of width 50. *)
Definition faixas_de (a n : nat) : list (Z * Z) :=
  map (fun i => (50 * Z.of_nat i, 50 * Z.of_nat i + 50)) (seq a n).

(** Position of the band of a non-negative price in [ordem_faixas]. *)
Definition indice_faixa (d : Dec) : nat :=
  Z.to_nat (Z.min (mantissa d / (50 * pow10 (escala d))) 20).

(** Line 153: [f"{low}-{high}"]. *)
Definition rotulo_faixa (low high : Z) : string :=
  (Flt.str_int low ++ "-" ++ Flt.str_int high)%string.

(** Lines 151-153: the first band that holds the price. *)
Fixpoint procurar_faixa (fs : list (Z * Z)) (preco : flutuante)
  : option string :=
  match fs with
  | [] => None
  | (low, high) :: fs' =>
      if Flt.le_int low preco && Flt.lt_int preco high
      then Some (rotulo_faixa low high)
      else procurar_faixa fs' preco
  end.

Section Faixas.

(** Python's [float] on a text; [None] when it raises. *)
Variable float_str : string -> option flutuante.

(** [float(preco)]; [None] when it raises. *)
Definition float_de (preco : celula) : option flutuante :=
  match preco with
  | Texto s => float_str s
  | Numero d => Some (Finito d)
  | Inf negativo => Some (Infinito negativo)
  | NaN => Some NaoNumero
  end.

(** [categorizar_faixa_preco], lines 141-157.  The result [None] is
    Python's [None]: the function body ends without a [return]. *)
Definition categorizar_faixa_preco (preco : celula) : option string :=
  match float_de preco with
  | Some x =>
      match procurar_faixa faixas x with
      | Some r => Some r
      | None => if Flt.ge_int x 1000 then Some "1000+"%string else None
      end
  | None => Some "0-50"%string
  end.

End Faixas.

(** A conversion that reads plain decimal literals between blanks. *)
Definition float_simples (s : string) : option flutuante :=
  option_map Finito (Num.parse (Str.strip s)).

(** ** Money formatting (src/app.py, lines 161-165) *)

(** Applies [f] to every character. *)
Fixpoint mapear (f : ascii -> ascii) (s : string) : string :=
  match s with
  | EmptyString => EmptyString
  | String c s' => String (f c) (mapear f s')
  end.

(** Comma and point change places; any other character stays. *)
Definition troca_sep (c : ascii) : ascii :=
  if Ascii.eqb c ","%char then "."%char
  else if Ascii.eqb c "."%char then ","%char
  else c.

Section Formatar.

(** Python's [format(x, ',.2f')] of a float. *)
Variable format_2f : flutuante -> string.

(** [f"R$ {valor:,.2f}"]; [None] when the format raises, as it does on a
    text. *)
Definition texto_reais (valor : celula) : option string :=
  match valor with
  | Texto _ => None
  | Numero d => Some ("R$ " ++ format_2f (Finito d))%string
  | Inf negativo => Some ("R$ " ++ format_2f (Infinito negativo))%string
  | NaN => Some ("R$ " ++ format_2f NaoNumero)%string
  end.

(** [formatar_reais], lines 161-165. *)
Definition formatar_reais (valor : celula) : celula :=
  match texto_reais valor with
  | Some t =>
      Texto (Str.replace "X" "." (Str.replace "." "," (Str.replace "," "X" t)))
  | None => valor
  end.

End Formatar.

(** The digits [s] in groups of three from the right, separated by [sep]. *)
Fixpoint agrupar (sep : ascii) (s : string) : string :=
  match s with
  | EmptyString => EmptyString
  | String c s' =>
      String c
        (if (0 <? String.length s')%nat && (String.length s' mod 3 =? 0)%nat
         then String sep (agrupar sep s')
         else agrupar sep s')
  end.

(** The absolute value in cents, rounded to the nearest cent; a value
    half-way between two cents goes to the even one. *)
Definition arredondar_centavos (d : Dec) : Z :=
  let n := Z.abs (mantissa d) * 100 in
  let p := pow10 (escala d) in
  let q := n / p in
  let r := n mod p in
  if 2 * r <? p then q
  else if p <? 2 * r then q + 1
  else if Z.even q then q else q + 1.

(** [format(x, ',.2f')] on the numbers of this development: sign,
    integer part in groups of three, point, two digits. *)
Definition format_milhar_2f (x : flutuante) : string :=
  match x with
  | NaoNumero => "nan"%string
  | Infinito negativo => if negativo then "-inf"%string else "inf"%string
  | Finito d =>
      let q := arredondar_centavos d in
      let sinal := if mantissa d <? 0 then "-"%string else EmptyString in
      let inteiro := agrupar "," (Num.put_nat (q / 100)) in
      let centavos := Num.put_fixed 2 (q mod 100) EmptyString in
      (sinal ++ inteiro ++ "." ++ centavos)%string
  end.

(** The character is not ["X"]; the character is a decimal digit. *)
Definition sem_X (c : ascii) : bool := negb (Ascii.eqb c "X"%char).

Definition eh_digito (c : ascii) : bool :=
  match Num.digit_val c with Some _ => true | None => false end.


(** ** The upload handler (src/app.py, lines 169-170 and 283-304) *)

(** What the page shows: [st.success], [st.info], [st.error],
    [st.warning]; the texts are left out. *)
Inductive aviso : Type := Sucesso | Informacao | Falha | Alerta.

(** The tables in memory, [st.session_state.df] ([None] before the first
    accepted upload, line 170) and the messages shown so far. *)
Record sessao : Type := MkSessao {
  loja : heap;
  atual : option ref;
  avisos : list aviso
}.

(** Line 294. *)
Definition required_cols : list string :=
  ["Brand"; "Product_Category"; "Initial_Price"; "Final_Price"]%string.

Section Carregar.

Context {C : Conversoes}.

(** Lines 291-295 inside the [try]: the normalized table and whether it
    has every required column. *)
Definition preparar (df_temp : ref) : M (ref * bool) :=
  let* df_temp := processar_valores_monetarios df_temp in
  let* cols := get_columns df_temp in
  ret (df_temp,
       forallb (fun col => existsb (String.eqb col) cols) required_cols).

(** Lines 283-304 for an uploaded file.  [lido] is what [pd.read_csv] or
    [pd.read_excel] gave (a table, placed at the new reference [df_temp],
    or an exception).  Any exception ends in the [except] branch, where the
    table read is dropped. *)
Definition carregar_arquivo (df_temp : ref) (lido : resultado DataFrame)
    (e : sessao) : sessao :=
  match lido with
  | Ok d =>
      match preparar df_temp (<[df_temp := d]> (loja e)) with
      | Ok ((r, true), h) =>
          MkSessao h (Some r) (avisos e ++ [Sucesso; Informacao])
      | Ok ((r, false), h) =>
          MkSessao h (atual e) (avisos e ++ [Falha; Informacao; Alerta])
      | Erro _ => MkSessao (loja e) (atual e) (avisos e ++ [Falha])
      end
  | Erro _ => MkSessao (loja e) (atual e) (avisos e ++ [Falha])
  end.

End Carregar.

(** The file is accepted: it was read, its price labels are unambiguous
    and every required label is among the stripped labels. *)
Definition aceito (lido : resultado DataFrame) : bool :=
  match lido with
  | Ok d =>
      rotulos_unicos_b d &&
      forallb (fun col => existsb (String.eqb col)
                            (map Str.strip (Pd.columns d))) required_cols
  | Erro _ => false
  end.

(** The current table, if any, has every required column, and its price
    columns hold numbers and missing cells only. *)
Definition sessao_valida (e : sessao) : Prop :=
  forall r, atual e = Some r ->
    exists t : DataFrame,
      loja e !! r = Some t /\
      (forall col, In col required_cols -> In col (Pd.columns t)) /\
      (forall j n (s : Series),
         t !! j = Some (n, s) -> In n colunas_preco -> numerica s).

(** ** The launch flag (src/app.py, lines 531-536 and 933-939) *)

(** A value of the [Is_Launch] column: text, a Python bool, an integer or
    a float (the missing marker is the float not-a-number). *)
Inductive valor_py : Type :=
  | VTexto (s : string)
  | VBool (b : bool)
  | VInt (z : Z)
  | VFloat (x : flutuante).

Module Launch.

(** [str(v)], as [astype(str)] applies it. *)
Definition str_of (v : valor_py) : string :=
  match v with
  | VTexto s => s
  | VBool true => "True"
  | VBool false => "False"
  | VInt z => Flt.str_int z
  | VFloat (Finito d) => Num.repr d
  | VFloat (Infinito true) => "-inf"
  | VFloat (Infinito false) => "inf"
  | VFloat NaoNumero => "nan"
  end.


(** [c.lower()] on a code point below 256. *)
Definition minuscula (c : ascii) : ascii :=
  let n := nat_of_ascii c in
  if ((65 <=? n)%nat && (n <=? 90)%nat)
     || ((192 <=? n)%nat && (n <=? 222)%nat && negb (n =? 215)%nat)
  then ascii_of_nat (n + 32) else c.

(** [s.lower()] *)
Definition lower (s : string) : string := mapear minuscula s.

(** The key ['não'] of the dictionary: its second letter is code point
    227. *)
Definition nao_til : string := String "n" (String "227" (String "o" "")).

(** The dictionary of lines 533-536 and 935-938. *)
Definition mapa : gmap string bool :=
  list_to_map
    [("true", true); ("sim", true); ("yes", true); ("1", true);
     ("false", false); (nao_til, false); ("nao", false); ("no", false);
     ("0", false)]%string.

(** One cell through
    [astype(str).str.strip().str.lower().map(mapa).fillna(False)]. *)
Definition is_launch (v : valor_py) : bool :=
  match mapa !! lower (Str.strip (str_of v)) with
  | Some b => b
  | None => false
  end.

(** The column assignment of lines 934-939. *)
Definition normalizar_is_launch (col : list valor_py) : list valor_py :=
  map (fun v => VBool (is_launch v)) col.

End Launch.

(** ** Lemmas on frames *)

Section Frames.

Implicit Types (d : DataFrame) (s : Series) (col : string).

Lemma tem_coluna_sel col d s :
  Pd.selecionar col d = [s] -> Pd.tem_coluna col d = true.
Proof.
  unfold Pd.tem_coluna, Pd.columns, Pd.selecionar.
  induction d as [|[n c] d IH]; simpl; [discriminate|].
  destruct (String.eqb col n); simpl; auto.
Qed.

Lemma tem_coluna_false_sel col d :
  Pd.tem_coluna col d = false -> Pd.selecionar col d = [].
Proof.
  unfold Pd.tem_coluna, Pd.columns, Pd.selecionar.
  induction d as [|[n c] d IH]; simpl; [reflexivity|].
  destruct (String.eqb col n); simpl; [discriminate|auto].
Qed.

Lemma tem_coluna_true_sel col d :
  Pd.tem_coluna col d = true -> Pd.selecionar col d <> [].
Proof.
  unfold Pd.tem_coluna, Pd.columns, Pd.selecionar.
  induction d as [|[n c] d IH]; simpl; [discriminate|].
  destruct (String.eqb col n); simpl; [discriminate|auto].
Qed.

Lemma setitem_present col s d :
  Pd.tem_coluna col d = true ->
  Pd.setitem col s d =
  map (fun c => if String.eqb col (fst c) then (fst c, s) else c) d.
Proof. intros H. unfold Pd.setitem. now rewrite H. Qed.

Lemma columns_setitem col s d :
  Pd.tem_coluna col d = true -> Pd.columns (Pd.setitem col s d) = Pd.columns d.
Proof.
  intros H. rewrite setitem_present by assumption. unfold Pd.columns.
  rewrite map_map. apply map_ext. intros [n c]; simpl.
  now destruct (String.eqb col n).
Qed.

Lemma tem_coluna_setitem col col' s d :
  Pd.tem_coluna col d = true ->
  Pd.tem_coluna col' (Pd.setitem col s d) = Pd.tem_coluna col' d.
Proof.
  intros H. unfold Pd.tem_coluna. now rewrite columns_setitem.
Qed.

Lemma sel_setitem col s s0 d :
  Pd.selecionar col d = [s0] -> Pd.selecionar col (Pd.setitem col s d) = [s].
Proof.
  intros H. rewrite setitem_present by (eapply tem_coluna_sel; eauto).
  revert H. unfold Pd.selecionar.
  induction d as [|[n c] d IH]; simpl; [discriminate|].
  destruct (String.eqb col n) eqn:E; simpl; rewrite E; simpl.
  - intros H. injection H as _ H. f_equal.
    clear IH. induction d as [|[n' c'] d IH]; simpl in *; [reflexivity|].
    destruct (String.eqb col n') eqn:E'; simpl in *; [discriminate|].
    rewrite E'. auto.
  - auto.
Qed.

Lemma sel_setitem_other col col' s d :
  Pd.tem_coluna col d = true -> col <> col' ->
  Pd.selecionar col' (Pd.setitem col s d) = Pd.selecionar col' d.
Proof.
  intros H Hne. rewrite setitem_present by assumption.
  unfold Pd.selecionar. clear H.
  induction d as [|[n c] d IH]; simpl; [reflexivity|].
  destruct (String.eqb col n) eqn:E; simpl.
  - apply String.eqb_eq in E. subst n.
    destruct (String.eqb col' col) eqn:E'.
    + apply String.eqb_eq in E'. congruence.
    + assumption.
  - destruct (String.eqb col' n); simpl; congruence.
Qed.

Lemma setitem_setitem col s1 s2 d :
  Pd.tem_coluna col d = true ->
  Pd.setitem col s2 (Pd.setitem col s1 d) = Pd.setitem col s2 d.
Proof.
  intros H.
  rewrite (setitem_present col s2 (Pd.setitem col s1 d))
    by (now rewrite tem_coluna_setitem).
  rewrite !setitem_present by assumption.
  rewrite map_map. apply map_ext. intros [n c]; simpl.
  destruct (String.eqb col n) eqn:E; simpl; now rewrite E.
Qed.

Lemma setitem_id col s d :
  Pd.selecionar col d = [s] -> Pd.setitem col s d = d.
Proof.
  intros H. rewrite setitem_present by (eapply tem_coluna_sel; eauto).
  revert H. unfold Pd.selecionar.
  induction d as [|[n c] d IH]; simpl; [reflexivity|].
  destruct (String.eqb col n) eqn:E; simpl.
  - intros H. injection H as -> H. f_equal.
    clear IH. induction d as [|[n' c'] d IH]; simpl in *; [reflexivity|].
    destruct (String.eqb col n') eqn:E'; simpl in *; [discriminate|].
    f_equal. auto.
  - intros H. f_equal. auto.
Qed.

Lemma getitem_sel col s d : Pd.selecionar col d = [s] -> Pd.getitem col d = Ok s.
Proof. intros H. unfold Pd.getitem. now rewrite H. Qed.

End Frames.

(** ** Lemmas on the store *)

Section Store.

Variables (df : ref) (col : string) (d0 : DataFrame) (h0 : heap).
Variable s0 : Series.
Hypothesis Hsel : Pd.selecionar col d0 = [s0].

Local Abbreviation st s := (<[df := Pd.setitem col s d0]> h0).

Lemma bind_getitem {A} (k : Series -> M A) s :
  bind (getitem df col) k (st s) = k s (st s).
Proof using Hsel.
  unfold bind, getitem, deref, bind. rewrite lookup_insert_eq.
  rewrite (getitem_sel col s) by (eapply sel_setitem; eauto).
  reflexivity.
Qed.

Lemma bind_setitem {A} (k : unit -> M A) s s' :
  bind (setitem df col s') k (st s) = k tt (st s').
Proof using Hsel.
  unfold bind, setitem, mutate, deref, bind. rewrite lookup_insert_eq.
  rewrite insert_insert_eq.
  rewrite setitem_setitem by (eapply tem_coluna_sel; eauto).
  reflexivity.
Qed.

Lemma run_setitem s s' : setitem df col s' (st s) = Ok (tt, st s').
Proof using Hsel.
  unfold setitem, mutate, deref, bind. rewrite lookup_insert_eq.
  rewrite insert_insert_eq.
  rewrite setitem_setitem by (eapply tem_coluna_sel; eauto).
  reflexivity.
Qed.

End Store.

(** ** Lemmas on text *)

Section Text.

Local Open Scope string_scope.

Lemma replace_char_cons a new c s :
  Str.replace (String a "") new (String c s) =
  if ascii_dec a c then new ++ Str.replace (String a "") new s
  else String c (Str.replace (String a "") new s).
Proof.
  unfold Str.replace. simpl.
  destruct (ascii_dec a c); [destruct s|]; reflexivity.
Qed.

Lemma contains_char_cons a c s :
  Str.contains (String a "") (String c s) =
  (if ascii_dec a c then true else false) || Str.contains (String a "") s.
Proof. simpl. destruct (ascii_dec a c); [destruct s|]; reflexivity. Qed.

Lemma contains_char_nil a : Str.contains (String a "") "" = false.
Proof. reflexivity. Qed.

(** Once the commas are replaced by points none is left. *)
Lemma no_comma_after_replace s :
  Str.contains "," (Str.replace "," "." s) = false.
Proof.
  induction s as [|c s IH]; [reflexivity|].
  rewrite replace_char_cons.
  destruct (ascii_dec "," c) as [E|E].
  - change ("." ++ Str.replace "," "." s)
      with (String "." (Str.replace "," "." s)).
    rewrite contains_char_cons, IH. reflexivity.
  - rewrite contains_char_cons, IH.
    now destruct (ascii_dec "," c).
Qed.

End Text.

(** ** The loop body computes [coluna_preco] *)

Section Column.

Context {C : Conversoes}.

Lemma onde_map2 (p q : celula -> bool) f (s : Series) :
  Pd.onde (zip_with andb (map p s) (map q s)) f s =
  map (fun c => if p c && q c then f c else c) s.
Proof.
  unfold Pd.onde. induction s as [|c s IH]; simpl; [reflexivity|].
  now rewrite IH.
Qed.

Lemma onde_map1 (p : celula -> bool) f (s : Series) :
  Pd.onde (map p s) f s = map (fun c => if p c then f c else c) s.
Proof.
  unfold Pd.onde. induction s as [|c s IH]; simpl; [reflexivity|].
  now rewrite IH.
Qed.

Lemma passo_separadores_texto t :
  passo_separadores (Texto t) = Texto (separadores t).
Proof.
  unfold passo_separadores, separadores. simpl.
  destruct (Str.contains "," t && Str.contains "." t) eqn:E; simpl.
  - now rewrite no_comma_after_replace.
  - destruct (Str.contains "," t && negb (Str.contains "." t)); reflexivity.
Qed.

Lemma celula_analisada c :
  Pd.to_numeric
    (passo_separadores
       (Pd.str_map Str.strip
          (Pd.str_map (Str.replace "r$" "")
             (Pd.str_map (Str.replace "R$" "") (Pd.astype_str c))))) =
  celula_de (analisar c).
Proof.
  unfold Pd.astype_str. simpl. rewrite passo_separadores_texto.
  reflexivity.
Qed.

Lemma onde_onde mask f g (s : Series) :
  Pd.onde mask g (Pd.onde mask f s) =
  Pd.onde mask (fun c => g (f c)) s.
Proof.
  unfold Pd.onde. revert s.
  induction mask as [|b mask IH]; intros [|c s]; simpl; try reflexivity.
  rewrite IH. now destruct b.
Qed.

Lemma linhas_102_108 (s : Series) :
  let mask_br :=
    zip_with andb (map (Pd.str_contains ",") s)
                  (map (Pd.str_contains ".") s) in
  let s' :=
    Pd.onde mask_br (Pd.str_map (Str.replace "," "."))
      (Pd.onde mask_br (Pd.str_map (Str.replace "." "")) s) in
  let mask_virgula :=
    zip_with andb (map (Pd.str_contains ",") s')
                  (map (fun c => negb (Pd.str_contains "." c)) s') in
  Pd.onde mask_virgula (Pd.str_map (Str.replace "," ".")) s' =
  map passo_separadores s.
Proof.
  intros mask_br s' mask_virgula. subst mask_virgula.
  rewrite onde_map2. subst s' mask_br.
  rewrite onde_onde, onde_map2, map_map.
  apply map_ext. intros c. reflexivity.
Qed.

Lemma linhas_93_111 (s : Series) :
  map Pd.to_numeric
    (map passo_separadores
       (map (Pd.str_map Str.strip)
          (map (Pd.str_map (Str.replace "r$" ""))
             (map (Pd.str_map (Str.replace "R$" ""))
                (map Pd.astype_str s))))) =
  map (fun c => celula_de (analisar c)) s.
Proof.
  rewrite !map_map. apply map_ext. intros c. apply celula_analisada.
Qed.

End Column.

Section Run.

Context {C : Conversoes}.

Variables (df : ref) (col : string) (d0 : DataFrame) (h : heap).
Variable s0 : Series.
Hypothesis Hsel : Pd.selecionar col d0 = [s0].

Local Abbreviation st s := (<[df := Pd.setitem col s d0]> h).

Ltac passo :=
  first [ rewrite (bind_getitem df col d0 h s0 Hsel)
        | rewrite (bind_setitem df col d0 h s0 Hsel)
        | rewrite (run_setitem df col d0 h s0 Hsel) ];
  cbv beta zeta.

Lemma corrigir_magnitude_st s :
  corrigir_magnitude df col (st s) = Ok (tt, st (magnitude s)).
Proof using Hsel.
  unfold corrigir_magnitude, magnitude.
  passo. cbv zeta.
  destruct (0 <? List.length (Pd.dropna s))%nat; [|reflexivity].
  destruct (Pd.any_lt dez (Pd.dropna s) && Pd.any_gt cem (Pd.dropna s)).
  - repeat passo. reflexivity.
  - destruct (Pd.max (Pd.dropna s)) as [mx|]; [|reflexivity].
    destruct (Flt.ltb mx (Finito dez)); [|reflexivity].
    repeat passo. reflexivity.
Qed.

Lemma processar_coluna_st :
  processar_coluna df col (st s0) = Ok (tt, st (coluna_preco s0)).
Proof using Hsel.
  unfold processar_coluna.
  repeat passo.
  rewrite corrigir_magnitude_st. unfold coluna_preco.
  rewrite linhas_102_108, linhas_93_111. reflexivity.
Qed.

End Run.

Section Normalizar.

Context {C : Conversoes}.

Lemma processar_coluna_ok df col d h s :
  h !! df = Some d -> Pd.selecionar col d = [s] ->
  processar_coluna df col h =
  Ok (tt, <[df := Pd.setitem col (coluna_preco s) d]> h).
Proof.
  intros Hh Hsel.
  pose proof (processar_coluna_st df col d h s Hsel) as H.
  cbv beta zeta in H.
  rewrite (setitem_id col s d Hsel) in H.
  rewrite (insert_id h df d Hh) in H. exact H.
Qed.

(** ** The program computes [normalizar] on the frame it was given *)

Lemma set_columns_strip (d : DataFrame) :
  Pd.set_columns (map Str.strip (Pd.columns d)) d = nomes_limpos d.
Proof.
  unfold Pd.set_columns, Pd.columns, nomes_limpos.
  induction d as [|[n c] d IH]; simpl; [reflexivity|]. now rewrite IH.
Qed.

Lemma limpar_nomes_colunas_ok df d (h : heap) :
  h !! df = Some d ->
  limpar_nomes_colunas df h = Ok (df, <[df := nomes_limpos d]> h).
Proof.
  intros Hh. unfold limpar_nomes_colunas, get_columns, mutate, deref, bind, ret.
  repeat first [rewrite Hh | progress cbv beta iota].
  now rewrite set_columns_strip.
Qed.

Lemma processar_coluna_dup df col d (h : heap) s1 s2 l :
  h !! df = Some d -> Pd.selecionar col d = s1 :: s2 :: l ->
  processar_coluna df col h = Erro AttributeError.
Proof.
  intros Hh Hsel. unfold processar_coluna, getitem, deref, bind at 1 2.
  rewrite Hh. cbv beta iota. unfold Pd.getitem. now rewrite Hsel.
Qed.

Lemma corpo_laco_ok df col d (h : heap) :
  h !! df = Some d ->
  corpo_laco df col h =
  match passo_coluna col d with
  | Ok d' => Ok (tt, <[df := d']> h)
  | Erro e => Erro e
  end.
Proof.
  intros Hh. unfold corpo_laco, get_columns, deref, bind at 1 2, ret.
  rewrite Hh. cbv beta iota.
  unfold passo_coluna. fold (Pd.tem_coluna col d).
  destruct (Pd.tem_coluna col d) eqn:Ht.
  - destruct (Pd.selecionar col d) as [|s1 [|s2 l]] eqn:Hsel.
    + now apply tem_coluna_true_sel in Ht.
    + rewrite (getitem_sel _ _ _ Hsel).
      now apply processar_coluna_ok.
    + unfold Pd.getitem. rewrite Hsel.
      eapply processar_coluna_dup; eauto.
  - now rewrite insert_id.
Qed.

Lemma for_each_ok df cols d (h : heap) :
  h !! df = Some d ->
  for_each cols (corpo_laco df) h =
  match passos cols d with
  | Ok d' => Ok (tt, <[df := d']> h)
  | Erro e => Erro e
  end.
Proof.
  revert d h. induction cols as [|col cols IH]; intros d h Hh; simpl.
  - unfold ret. now rewrite insert_id.
  - unfold bind. rewrite (corpo_laco_ok df col d h Hh).
    destruct (passo_coluna col d) as [d'|e]; [|reflexivity].
    rewrite (IH d') by apply lookup_insert_eq.
    destruct (passos cols d') as [d''|e]; [|reflexivity].
    now rewrite insert_insert_eq.
Qed.

(** A run on a store holding [d] at [df] either raises or returns [df]
    itself, with the store updated at [df] and nowhere else. *)
Lemma processar_valores_monetarios_run df d (h : heap) :
  h !! df = Some d ->
  processar_valores_monetarios df h =
  match normalizar d with
  | Ok d' => Ok (df, <[df := d']> h)
  | Erro e => Erro e
  end.
Proof.
  intros Hh. unfold processar_valores_monetarios, bind at 1.
  rewrite (limpar_nomes_colunas_ok df d h Hh).
  unfold bind at 1.
  rewrite (for_each_ok df colunas_preco (nomes_limpos d))
    by apply lookup_insert_eq.
  unfold normalizar.
  destruct (passos colunas_preco (nomes_limpos d)) as [d'|e]; [|reflexivity].
  unfold ret. now rewrite insert_insert_eq.
Qed.

Lemma executar_normalizar d : executar d = normalizar d.
Proof.
  unfold executar.
  rewrite (processar_valores_monetarios_run 1%positive d)
    by apply lookup_singleton_eq.
  destruct (normalizar d) as [d'|e]; [|reflexivity].
  now rewrite lookup_insert_eq.
Qed.

(** ** Frames with unambiguous price labels *)

Lemma setitem_unico col s (d : DataFrame) :
  Pd.selecionar col d = [s] ->
  map (fun c => if String.eqb col (fst c) then (fst c, coluna_preco s) else c) d
  = map (aplicar col) d.
Proof.
  unfold Pd.selecionar, aplicar.
  induction d as [|[n c] d IH]; simpl; [reflexivity|].
  destruct (String.eqb col n) eqn:E; simpl.
  - intros H. injection H as -> H. f_equal.
    clear IH. induction d as [|[n' c'] d IH]; simpl in *; [reflexivity|].
    destruct (String.eqb col n') eqn:E'; simpl in *; [discriminate|].
    f_equal. auto.
  - intros H. f_equal. auto.
Qed.

Lemma aplicar_ausente col (d : DataFrame) :
  Pd.tem_coluna col d = false -> map (aplicar col) d = d.
Proof.
  unfold Pd.tem_coluna, Pd.columns, aplicar.
  induction d as [|[n c] d IH]; simpl; [reflexivity|].
  destruct (String.eqb col n); simpl; [discriminate|].
  intros H. f_equal. auto.
Qed.

Lemma passo_coluna_unico col (d : DataFrame) :
  (List.length (Pd.selecionar col d) <= 1)%nat ->
  passo_coluna col d = Ok (map (aplicar col) d).
Proof.
  intros Hlen. unfold passo_coluna.
  destruct (Pd.tem_coluna col d) eqn:Ht.
  - destruct (Pd.selecionar col d) as [|s [|s' l]] eqn:Hsel.
    + now apply tem_coluna_true_sel in Ht.
    + rewrite (getitem_sel _ _ _ Hsel), setitem_present by assumption.
      now rewrite (setitem_unico _ _ _ Hsel).
    + simpl in Hlen. lia.
  - now rewrite aplicar_ausente.
Qed.

Lemma passo_coluna_duplicada col (d : DataFrame) :
  (2 <= List.length (Pd.selecionar col d))%nat ->
  passo_coluna col d = Erro AttributeError.
Proof.
  intros Hlen. unfold passo_coluna.
  destruct (Pd.selecionar col d) as [|s [|s' l]] eqn:Hsel;
    simpl in Hlen; try lia.
  destruct (Pd.tem_coluna col d) eqn:Ht.
  - unfold Pd.getitem. now rewrite Hsel.
  - apply tem_coluna_false_sel in Ht. congruence.
Qed.

Lemma selecionar_aplicar_length col col' (d : DataFrame) :
  List.length (Pd.selecionar col' (map (aplicar col) d)) =
  List.length (Pd.selecionar col' d).
Proof.
  unfold Pd.selecionar, aplicar.
  induction d as [|[n c] d IH]; simpl; [reflexivity|].
  destruct (String.eqb col n); simpl;
    destruct (String.eqb col' n); simpl; now rewrite IH.
Qed.

Lemma aplicar_ambas (c : string * Series) :
  aplicar "Final_Price" (aplicar "Initial_Price" (Str.strip (fst c), snd c))
  = coluna_saida c.
Proof.
  unfold coluna_saida, eh_preco, colunas_preco, existsb.
  generalize (Str.strip (fst c)) as n. intros n.
  rewrite !(String.eqb_sym n), orb_false_r.
  unfold aplicar at 2. cbn [fst snd].
  destruct (String.eqb "Initial_Price" n) eqn:E1.
  - apply String.eqb_eq in E1. subst n. reflexivity.
  - unfold aplicar. cbn [fst snd orb].
    destruct (String.eqb "Final_Price" n); reflexivity.
Qed.

Lemma normalizar_unicos (d : DataFrame) :
  rotulos_unicos d -> normalizar d = Ok (saida d).
Proof.
  intros Hu. unfold normalizar, colunas_preco. simpl.
  rewrite passo_coluna_unico by (apply Hu; simpl; auto).
  rewrite passo_coluna_unico
    by (rewrite selecionar_aplicar_length; apply Hu; simpl; auto).
  f_equal. unfold saida, nomes_limpos. rewrite !map_map.
  apply map_ext. intros c. apply aplicar_ambas.
Qed.

(** With unambiguous price labels a call returns, and the frame it
    leaves is [saida]. *)
Lemma executar_unicos (d : DataFrame) :
  rotulos_unicos d -> executar d = Ok (saida d).
Proof. intros Hu. rewrite executar_normalizar. now apply normalizar_unicos. Qed.

Lemma selecionar_length_columns col (d1 d2 : DataFrame) :
  Pd.columns d1 = Pd.columns d2 ->
  List.length (Pd.selecionar col d1) = List.length (Pd.selecionar col d2).
Proof.
  unfold Pd.columns, Pd.selecionar. revert d2.
  induction d1 as [|[n1 c1] d1 IH]; intros [|[n2 c2] d2]; simpl;
    try discriminate; [reflexivity|].
  intros H. injection H as -> H.
  destruct (String.eqb col n2); simpl; rewrite (IH d2 H); reflexivity.
Qed.

Lemma passo_coluna_columns col (d d' : DataFrame) :
  passo_coluna col d = Ok d' -> Pd.columns d' = Pd.columns d.
Proof.
  unfold passo_coluna. destruct (Pd.tem_coluna col d) eqn:Ht.
  - destruct (Pd.getitem col d) as [s|e]; [|discriminate].
    intros H. injection H as <-. now apply columns_setitem.
  - intros H. now injection H as <-.
Qed.

Lemma passo_coluna_erro col (d : DataFrame) e :
  passo_coluna col d = Erro e -> e = AttributeError.
Proof.
  unfold passo_coluna, Pd.getitem. destruct (Pd.tem_coluna col d) eqn:Ht;
    [|discriminate].
  destruct (Pd.selecionar col d) as [|s [|s' l]] eqn:Hsel.
  - now apply tem_coluna_true_sel in Ht.
  - discriminate.
  - intros H. now injection H as <-.
Qed.

(** A price label that occurs twice among the stripped labels ends the
    call with [AttributeError]. *)
Lemma executar_rotulo_duplicado (d : DataFrame) col :
  In col colunas_preco ->
  (2 <= List.length (Pd.selecionar col (nomes_limpos d)))%nat ->
  executar d = Erro AttributeError.
Proof.
  intros Hc Hlen. rewrite executar_normalizar.
  unfold normalizar, colunas_preco in *. cbn [passos].
  destruct Hc as [<-|[<-|[]]].
  - now rewrite passo_coluna_duplicada.
  - destruct (passo_coluna "Initial_Price" (nomes_limpos d)) as [d'|e] eqn:E.
    + rewrite passo_coluna_duplicada; [reflexivity|].
      rewrite (selecionar_length_columns _ d' (nomes_limpos d));
        [assumption|].
      eapply passo_coluna_columns; eauto.
    + f_equal. eapply passo_coluna_erro; eauto.
Qed.

(** A call returns exactly on the frames with unambiguous price labels. *)
Lemma executar_ok_inv (d d' : DataFrame) :
  executar d = Ok d' <-> rotulos_unicos d /\ d' = saida d.
Proof.
  split.
  - intros He.
    assert (rotulos_unicos d) as Hu.
    { intros col Hc.
      destruct (le_lt_dec (List.length (Pd.selecionar col (nomes_limpos d))) 1)
        as [Hle|Hgt]; [assumption|].
      rewrite (executar_rotulo_duplicado d col Hc) in He by lia.
      discriminate. }
    split; [assumption|].
    rewrite (executar_unicos d Hu) in He. now injection He.
  - intros [Hu ->]. now apply executar_unicos.
Qed.

Lemma lookup_map {A B} (f : A -> B) (l : list A) (j : nat) :
  map f l !! j = option_map f (l !! j).
Proof.
  revert j. induction l as [|x l IH]; intros [|j]; simpl; auto.
Qed.

Lemma saida_lookup (d : DataFrame) j n (s : Series) :
  d !! j = Some (n, s) -> saida d !! j = Some (coluna_saida (n, s)).
Proof. intros H. unfold saida. now rewrite lookup_map, H. Qed.

End Normalizar.

(** ** Arithmetic of the numbers *)

Section Arith.

Lemma pow10_pos e : 0 < pow10 e.
Proof. unfold pow10. apply Z.pow_pos_nonneg; lia. Qed.

Lemma pow10_S e : pow10 (S e) = 10 * pow10 e.
Proof. unfold pow10. rewrite Nat2Z.inj_succ, Z.pow_succ_r; lia. Qed.

Lemma pow10_add a b : pow10 (a + b) = pow10 a * pow10 b.
Proof. unfold pow10. rewrite Nat2Z.inj_add, Z.pow_add_r; lia. Qed.

(** A value below 10 is not above 100. *)
Lemma dec_lt_dez_not_gt_cem v : dec_ltb v dez = true -> dec_ltb cem v = false.
Proof.
  unfold dec_ltb, dez, cem, dec_of_Z. simpl. change (pow10 0) with 1.
  pose proof (pow10_pos (escala v)).
  rewrite Z.ltb_lt, Z.ltb_ge. lia.
Qed.

Lemma lt_dez_not_gt_cem x :
  Flt.ltb x (Finito dez) = true -> Flt.ltb (Finito cem) x = false.
Proof.
  destruct x as [v|[]|]; simpl; try discriminate; try reflexivity.
  apply dec_lt_dez_not_gt_cem.
Qed.

Lemma dec_max_lt a b k :
  dec_ltb (if dec_ltb a b then b else a) k = dec_ltb a k && dec_ltb b k.
Proof.
  destruct (dec_ltb a b) eqn:E.
  - destruct (dec_ltb b k) eqn:Eb; [|now rewrite andb_false_r].
    rewrite andb_true_r. symmetry.
    unfold dec_ltb in *. rewrite Z.ltb_lt in *.
    pose proof (pow10_pos (escala a)). pose proof (pow10_pos (escala b)).
    pose proof (pow10_pos (escala k)).
    apply (Z.mul_lt_mono_pos_r (pow10 (escala b))); [assumption|]. nia.
  - destruct (dec_ltb a k) eqn:Ea; [|reflexivity].
    simpl. symmetry.
    unfold dec_ltb in *. rewrite Z.ltb_lt in Ea |- *. rewrite Z.ltb_ge in E.
    pose proof (pow10_pos (escala a)). pose proof (pow10_pos (escala b)).
    pose proof (pow10_pos (escala k)).
    apply (Z.mul_lt_mono_pos_r (pow10 (escala a))); [assumption|]. nia.
Qed.

Lemma flt_max_lt a b k :
  eh_numero a = true -> eh_numero b = true ->
  Flt.ltb (Flt.max a b) (Finito k) =
  Flt.ltb a (Finito k) && Flt.ltb b (Finito k).
Proof.
  intros Ha Hb. unfold Flt.max.
  destruct a as [x|[]|], b as [y|[]|]; try discriminate; cbn [Flt.ltb negb andb];
    try reflexivity; try (now rewrite andb_true_r); try (now rewrite andb_false_r).
  rewrite <- dec_max_lt. now destruct (dec_ltb x y).
Qed.

Lemma flt_max_numero a b :
  eh_numero a = true -> eh_numero b = true -> eh_numero (Flt.max a b) = true.
Proof. intros Ha Hb. unfold Flt.max. now destruct (Flt.ltb a b). Qed.

(** The largest number is below [k] exactly when all are. *)
Lemma fold_max_lt l x k :
  eh_numero x = true -> forallb eh_numero l = true ->
  Flt.ltb (fold_left Flt.max l x) (Finito k) =
  Flt.ltb x (Finito k) && forallb (fun v => Flt.ltb v (Finito k)) l.
Proof.
  revert x. induction l as [|y l IH]; intros x Hx Hl; simpl.
  - now rewrite andb_true_r.
  - simpl in Hl. apply andb_true_iff in Hl as [Hy Hl].
    rewrite IH by (try apply flt_max_numero; assumption).
    rewrite flt_max_lt by assumption. now rewrite andb_assoc.
Qed.

Lemma max_lt l mx k :
  forallb eh_numero l = true -> Pd.max l = Some mx ->
  Flt.ltb mx (Finito k) = forallb (fun v => Flt.ltb v (Finito k)) l.
Proof.
  destruct l as [|x l]; simpl; [discriminate|].
  intros Hl H. injection H as <-. apply andb_true_iff in Hl as [Hx Hl].
  now apply fold_max_lt.
Qed.

Lemma dropna_numero (s : Series) : forallb eh_numero (Pd.dropna s) = true.
Proof.
  induction s as [|c s IH]; [reflexivity|]. now destruct c.
Qed.

Lemma norm_aux_pow10 m k : norm_aux (m * pow10 k) k = MkDec m 0.
Proof.
  induction k as [|k IH].
  - cbn [norm_aux]. change (pow10 0) with 1. now rewrite Z.mul_1_r.
  - cbn [norm_aux]. rewrite pow10_S.
    replace (m * (10 * pow10 k)) with (m * pow10 k * 10) by lia.
    rewrite Z.mod_mul by lia. cbn [Z.eqb].
    now rewrite Z.div_mul by lia.
Qed.

Lemma inteiro_proximo_1 a : F64.inteiro_proximo a 1 = a.
Proof.
  unfold F64.inteiro_proximo. rewrite Z.mod_1_r, Z.div_1_r. reflexivity.
Qed.

(** An integer below 2 ^ 53 in absolute value is a float: rounding keeps
    it. *)
Lemma arredondar_inteiro n :
  Z.abs n < 2 ^ 53 -> F64.arredondar (MkDec n 0) = Finito (MkDec n 0).
Proof.
  intros Hn. unfold F64.arredondar. cbn [mantissa escala].
  destruct (Z.eqb_spec (Z.abs n) 0) as [E|E].
  - f_equal. f_equal. lia.
  - change (pow10 0) with 1.
    assert (0 < Z.abs n) as Hpos by lia.
    pose proof (Z.log2_spec (Z.abs n) Hpos) as [Hlo Hhi].
    pose proof (Z.log2_nonneg (Z.abs n)) as Hl0.
    assert (Z.log2 (Z.abs n) <= 52) as Hl.
    { apply Z.lt_succ_r. apply (Z.pow_lt_mono_r_iff 2); lia. }
    set (k := 52 - Z.log2 (Z.abs n)).
    assert (0 <= k) as Hk by (unfold k; lia).
    assert (2 ^ 52 <= Z.abs n * 2 ^ k) as Hbig.
    { replace (2 ^ 52) with (2 ^ Z.log2 (Z.abs n) * 2 ^ k).
      - apply Z.mul_le_mono_nonneg_r; [apply Z.pow_nonneg; lia|exact Hlo].
      - rewrite <- Z.pow_add_r by lia. f_equal. unfold k. lia. }
    assert (F64.fracao (Z.abs n) 1 (- k) = (Z.abs n * 2 ^ k, 1)) as Hf.
    { unfold F64.fracao. destruct (Z.leb_spec 0 (- k)).
      - assert (k = 0) as -> by lia. cbn. f_equal. lia.
      - now rewrite Z.opp_involutive. }
    assert (F64.expoente (Z.abs n) 1 = - k) as He.
    { unfold F64.expoente. change (Z.log2 1) with 0.
      replace (Z.log2 (Z.abs n) - 0 - 52) with (- k) by (unfold k; lia).
      rewrite Hf. rewrite Z.div_1_r.
      destruct (Z.ltb_spec (Z.abs n * 2 ^ k) (2 ^ 52)); [lia|].
      unfold k. lia. }
    rewrite He, Hf, inteiro_proximo_1.
    destruct (Z.ltb_spec 971 (- k)); [lia|].
    destruct (Z.eqb_spec (- k) 971); [lia|]. cbn [orb andb].
    f_equal. unfold F64.decimal.
    assert ((if n <? 0 then - (Z.abs n * 2 ^ k) else Z.abs n * 2 ^ k)
            = n * 2 ^ k) as -> by (destruct (Z.ltb_spec n 0); lia).
    destruct (Z.leb_spec 0 (- k)).
    + assert (k = 0) as -> by lia. cbn. f_equal. lia.
    + rewrite Z.opp_involutive. unfold norm. cbn [mantissa escala].
      replace (n * 2 ^ k * 5 ^ k) with (n * pow10 (Z.to_nat k)).
      * apply norm_aux_pow10.
      * unfold pow10. rewrite Z2Nat.id by lia.
        change 10 with (2 * 5). rewrite Z.pow_mul_l. lia.
Qed.

End Arith.

(** ** Text that only holds given characters *)

Section Chars.

Local Open Scope string_scope.

Lemma append_cons c (s1 s2 : string) : String c s1 ++ s2 = String c (s1 ++ s2).
Proof. reflexivity. Qed.

Lemma append_nil_l (s : string) : "" ++ s = s.
Proof. reflexivity. Qed.

Lemma append_assoc (s1 s2 s3 : string) : (s1 ++ s2) ++ s3 = s1 ++ (s2 ++ s3).
Proof.
  induction s1 as [|c s1 IH]; [reflexivity|].
  rewrite !append_cons. now rewrite IH.
Qed.

Lemma length_append (s1 s2 : string) :
  String.length (s1 ++ s2) = (String.length s1 + String.length s2)%nat.
Proof.
  induction s1 as [|c s1 IH]; [reflexivity|].
  rewrite append_cons. simpl. now rewrite IH.
Qed.

Lemma todos_app P s1 s2 : todos P (s1 ++ s2) = todos P s1 && todos P s2.
Proof.
  induction s1 as [|c s1 IH]; [reflexivity|].
  rewrite append_cons. simpl. now rewrite IH, andb_assoc.
Qed.

Lemma todos_impl (P Q : ascii -> bool) s :
  (forall c, P c = true -> Q c = true) -> todos P s = true -> todos Q s = true.
Proof.
  intros HPQ. induction s as [|c s IH]; simpl; [reflexivity|].
  rewrite !andb_true_iff. intros [H1 H2]. auto.
Qed.

Lemma replace_no_first a old new s :
  todos (fun c => negb (Ascii.eqb a c)) s = true ->
  Str.replace (String a old) new s = s.
Proof.
  unfold Str.replace.
  induction s as [|c s IH]; [reflexivity|].
  cbn [todos]. rewrite andb_true_iff, negb_true_iff. intros [Hc Hs].
  cbn [Str.replace_from prefix].
  destruct (ascii_dec a c) as [->|_].
  - now rewrite Ascii.eqb_refl in Hc.
  - now rewrite IH.
Qed.

Lemma contains_no_char a s :
  todos (fun c => negb (Ascii.eqb a c)) s = true ->
  Str.contains (String a "") s = false.
Proof.
  induction s as [|c s IH]; [reflexivity|].
  cbn [todos]. rewrite andb_true_iff, negb_true_iff. intros [Hc Hs].
  rewrite contains_char_cons, IH by assumption.
  destruct (ascii_dec a c) as [->|_]; [|reflexivity].
  now rewrite Ascii.eqb_refl in Hc.
Qed.

Lemma lstrip_no_space s :
  todos (fun c => negb (Str.is_space c)) s = true -> Str.lstrip s = s.
Proof.
  destruct s as [|c s]; [reflexivity|].
  cbn [todos Str.lstrip]. rewrite andb_true_iff, negb_true_iff.
  now intros [-> _].
Qed.

Lemma rstrip_no_space s :
  todos (fun c => negb (Str.is_space c)) s = true -> Str.rstrip s = s.
Proof.
  induction s as [|c s IH]; [reflexivity|].
  cbn [todos Str.rstrip]. rewrite andb_true_iff, negb_true_iff.
  intros [Hc Hs]. rewrite IH by assumption. rewrite Hc.
  now destruct s.
Qed.

Lemma strip_no_space s :
  todos (fun c => negb (Str.is_space c)) s = true -> Str.strip s = s.
Proof.
  intros H. unfold Str.strip.
  now rewrite lstrip_no_space, rstrip_no_space.
Qed.

Lemma numchar_plain c :
  numchar c = true ->
  negb (Ascii.eqb "R" c) = true /\ negb (Ascii.eqb "r" c) = true /\
  negb (Ascii.eqb "," c) = true /\ negb (Str.is_space c) = true.
Proof.
  destruct c as [[] [] [] [] [] [] [] []]; vm_compute; intros H;
    try discriminate; repeat split.
Qed.

(** A printed number goes through lines 96-108 unchanged. *)
Lemma limpar_texto_num s : todos numchar s = true -> limpar_texto s = s.
Proof.
  intros H. unfold limpar_texto.
  rewrite (replace_no_first "R" "$" "" s)
    by (revert H; apply todos_impl; intros c Hc; apply numchar_plain, Hc).
  rewrite (replace_no_first "r" "$" "" s)
    by (revert H; apply todos_impl; intros c Hc; apply numchar_plain, Hc).
  apply strip_no_space.
  revert H. apply todos_impl. intros c Hc. apply numchar_plain, Hc.
Qed.

Lemma separadores_num s : todos numchar s = true -> separadores s = s.
Proof.
  intros H. unfold separadores.
  rewrite (contains_no_char "," s)
    by (revert H; apply todos_impl; intros c Hc; apply numchar_plain, Hc).
  reflexivity.
Qed.

End Chars.

(** ** Reading back a printed number *)

Section RoundTrip.

Local Open Scope string_scope.

Lemma digit_val_char d :
  0 <= d < 10 -> Num.digit_val (Num.digit_char d) = Some d.
Proof.
  intros H.
  assert (d = 0 \/ d = 1 \/ d = 2 \/ d = 3 \/ d = 4 \/ d = 5 \/ d = 6 \/
          d = 7 \/ d = 8 \/ d = 9) as Hd by lia.
  repeat (destruct Hd as [-> | Hd]; [reflexivity|]). now subst.
Qed.

Lemma put_fixed_acc k n acc :
  Num.put_fixed k n acc = Num.put_fixed k n "" ++ acc.
Proof.
  revert n acc. induction k as [|k IH]; intros n acc; [reflexivity|].
  cbn [Num.put_fixed].
  rewrite (IH _ (String _ "")), (IH _ (String _ acc)).
  now rewrite append_assoc.
Qed.

Lemma put_fixed_length k n : String.length (Num.put_fixed k n "") = k.
Proof.
  revert n. induction k as [|k IH]; intros n; [reflexivity|].
  cbn [Num.put_fixed].
  rewrite put_fixed_acc, length_append, IH. cbn [String.length]. lia.
Qed.

Lemma get_digits_app s1 s2 a :
  Num.get_digits (s1 ++ s2) a =
  match Num.get_digits s1 a with
  | Some a' => Num.get_digits s2 a'
  | None => None
  end.
Proof.
  revert a. induction s1 as [|c s1 IH]; intros a; simpl; [reflexivity|].
  destruct (Num.digit_val c); [apply IH|reflexivity].
Qed.

Lemma get_put_fixed k n a :
  Num.get_digits (Num.put_fixed k n "") a = Some (a * pow10 k + n mod pow10 k).
Proof.
  revert n a. induction k as [|k IH]; intros n a.
  - cbn [Num.put_fixed Num.get_digits]. change (pow10 0) with 1.
    rewrite Z.mod_1_r. f_equal. lia.
  - cbn [Num.put_fixed]. rewrite put_fixed_acc, get_digits_app, IH.
    cbn [Num.get_digits].
    rewrite digit_val_char by (apply Z.mod_pos_bound; lia).
    f_equal. rewrite pow10_S.
    rewrite (Z.rem_mul_r n 10 (pow10 k)) by (pose proof (pow10_pos k); lia).
    lia.
Qed.

Lemma put_fixed_digits k n :
  todos (fun c => match Num.digit_val c with Some _ => true | None => false end)
        (Num.put_fixed k n "") = true.
Proof.
  revert n. induction k as [|k IH]; intros n; [reflexivity|].
  cbn [Num.put_fixed]. rewrite put_fixed_acc, todos_app, IH.
  cbn [todos andb].
  now rewrite digit_val_char by (apply Z.mod_pos_bound; lia).
Qed.

Lemma width_aux_bound f n :
  0 <= n < 2 ^ (Z.of_nat f + 1) -> n < pow10 (Num.width_aux f n).
Proof.
  revert n. induction f as [|f IH]; intros n Hn.
  - cbn [Num.width_aux]. change (pow10 1) with 10.
    change (2 ^ (Z.of_nat 0 + 1)) with 2 in Hn. lia.
  - cbn [Num.width_aux]. destruct (n <? 10)%Z eqn:E.
    + apply Z.ltb_lt in E. change (pow10 1) with 10. lia.
    + apply Z.ltb_ge in E. rewrite pow10_S.
      assert (0 <= n / 10 < 2 ^ (Z.of_nat f + 1)) as Hq.
      { split; [apply Z.div_pos; lia|].
        apply Z.div_lt_upper_bound; [lia|].
        replace (Z.of_nat (S f) + 1) with (Z.succ (Z.of_nat f + 1)) in Hn by lia.
        rewrite Z.pow_succ_r in Hn by lia. lia. }
      specialize (IH _ Hq).
      pose proof (Z_div_mod_eq_full n 10).
      pose proof (Z.mod_pos_bound n 10). lia.
Qed.

Lemma width_bound n : 0 <= n -> n < pow10 (Num.width n).
Proof.
  intros Hn. unfold Num.width. apply width_aux_bound.
  rewrite Z2Nat.id by apply Z.log2_nonneg.
  split; [assumption|].
  destruct (Z.eq_dec n 0) as [->|Hz]; [reflexivity|].
  replace (Z.log2 n + 1) with (Z.succ (Z.log2 n)) by lia.
  apply Z.log2_spec. lia.
Qed.

Lemma width_pos n : (1 <= Num.width n)%nat.
Proof.
  unfold Num.width. destruct (Z.to_nat (Z.log2 n)); cbn [Num.width_aux]; [lia|].
  destruct (n <? 10)%Z; lia.
Qed.

Lemma get_put_nat n : 0 <= n -> Num.get_digits (Num.put_nat n) 0 = Some n.
Proof.
  intros Hn. unfold Num.put_nat. rewrite get_put_fixed.
  rewrite Z.mod_small by (split; [assumption|now apply width_bound]).
  reflexivity.
Qed.

Lemma split_point_digits s rest :
  todos (fun c => match Num.digit_val c with Some _ => true | None => false end) s
  = true ->
  Num.split_point (s ++ String "." rest) = (s, rest).
Proof.
  induction s as [|c s IH]; [reflexivity|].
  cbn [todos]. rewrite andb_true_iff. intros [Hc Hs].
  rewrite append_cons. cbn [Num.split_point]. rewrite IH by assumption.
  destruct (Ascii.eqb c ".") eqn:E; [|reflexivity].
  apply Ascii.eqb_eq in E. subst c. discriminate.
Qed.

Lemma norm_aux_opp e m : norm_aux (- m) e = Num.negate (norm_aux m e).
Proof.
  revert m. induction e as [|e IH]; intros m; [reflexivity|].
  cbn [norm_aux].
  destruct (m mod 10 =? 0)%Z eqn:E.
  - apply Z.eqb_eq in E.
    assert ((- m) mod 10 = 0) as E' by (apply Z.mod_opp_l_z; lia).
    rewrite E'. cbn [Z.eqb].
    replace (- m / 10) with (- (m / 10)) by (symmetry; apply Z.div_opp_l_z; lia).
    apply IH.
  - apply Z.eqb_neq in E.
    assert ((- m) mod 10 <> 0) as E'.
    { intros H. apply E. 
      replace m with (- - m) by lia. apply Z.mod_opp_l_z; lia. }
    apply Z.eqb_neq in E'. now rewrite E'.
Qed.

Lemma unsigned_repr m e :
  0 <= m ->
  Num.unsigned
    (Num.put_nat (m / pow10 e) ++ "." ++
     match e with
     | O => "0"
     | S _ => Num.put_fixed e (m mod pow10 e) ""
     end) = Some (norm (MkDec m e)).
Proof.
  intros Hm. pose proof (pow10_pos e) as Hp.
  unfold Num.unsigned.
  change ("." ++ ?x) with (String "." x).
  rewrite split_point_digits by apply put_fixed_digits.
  assert (0 <= m / pow10 e) as Hq by (apply Z.div_pos; lia).
  rewrite get_put_nat by assumption.
  assert (String.length (Num.put_nat (m / pow10 e)) <> 0%nat) as Hlen.
  { unfold Num.put_nat. rewrite put_fixed_length.
    pose proof (width_pos (m / pow10 e)). lia. }
  destruct (_ + _ =? 0)%nat eqn:E; [apply Nat.eqb_eq in E; lia|]. clear E.
  destruct e as [|e].
  - change (pow10 0) with 1 in *. rewrite Z.div_1_r.
    cbn [Num.get_digits String.length]. change (Num.digit_val "0") with (Some 0).
    cbn iota. change (pow10 1) with 10. unfold norm. cbn [mantissa escala norm_aux].
    replace (m * 10 + (10 * 0 + 0)) with (m * 10) by lia.
    rewrite Z.mod_mul by lia. cbn [Z.eqb].
    rewrite Z.div_mul by lia. reflexivity.
  - rewrite get_put_fixed, put_fixed_length.
    rewrite Z.mod_mod by lia.
    do 3 f_equal. pose proof (Z_div_mod_eq_full m (pow10 (S e))). lia.
Qed.

Lemma parse_digit_first c s :
  Num.digit_val c <> None ->
  Num.parse (String c s) = Num.unsigned (String c s).
Proof.
  intros H.
  destruct c as [[] [] [] [] [] [] [] []];
    first [ exfalso; apply H; vm_compute; reflexivity
          | unfold Num.parse; reflexivity ].
Qed.

Lemma put_nat_first n :
  exists c s, Num.put_nat n = String c s /\ Num.digit_val c <> None.
Proof.
  pose proof (put_fixed_digits (Num.width n) n) as Hd.
  pose proof (put_fixed_length (Num.width n) n) as Hl.
  pose proof (width_pos n) as Hw.
  unfold Num.put_nat. destruct (Num.put_fixed (Num.width n) n "") as [|c s].
  - simpl in Hl. lia.
  - exists c, s. split; [reflexivity|]. cbn [todos] in Hd.
    destruct (Num.digit_val c); [discriminate|]. discriminate.
Qed.

(** Reading a number printed by [Num.repr] gives it back, in lowest
    terms. *)
Lemma parse_repr d : Num.parse (Num.repr d) = Some (norm d).
Proof.
  destruct d as [m e]. unfold Num.repr. cbn [mantissa escala].
  destruct (m <? 0)%Z eqn:E.
  - apply Z.ltb_lt in E. rewrite append_cons, append_nil_l. cbn [Num.parse].
    pose proof (unsigned_repr (Z.abs m) e (Z.abs_nonneg m)) as H.
    rewrite H. simpl. f_equal. unfold norm. cbn [mantissa escala].
    rewrite <- norm_aux_opp. f_equal. lia.
  - apply Z.ltb_ge in E. rewrite append_nil_l.
    destruct (put_nat_first (Z.abs m / pow10 e)) as (c & s & Hs & Hc).
    pose proof (unsigned_repr (Z.abs m) e (Z.abs_nonneg m)) as H.
    rewrite Hs in *. rewrite append_cons in *.
    rewrite parse_digit_first by assumption.
    rewrite H. now rewrite Z.abs_eq by assumption.
Qed.

Lemma repr_numchar d : todos numchar (Num.repr d) = true.
Proof.
  assert (forall s,
    todos (fun c => match Num.digit_val c with Some _ => true | None => false end) s
    = true -> todos numchar s = true) as Hdig.
  { intros s. apply todos_impl. intros c. unfold numchar.
    now destruct (Num.digit_val c). }
  unfold Num.repr. rewrite !todos_app.
  rewrite !andb_true_iff. repeat split.
  - now destruct (mantissa d <? 0)%Z.
  - apply Hdig, put_fixed_digits.
  - destruct (escala d); [reflexivity|]. apply Hdig, put_fixed_digits.
Qed.

End RoundTrip.

(** ** Stripping *)

Section Strip.

Local Open Scope string_scope.











End Strip.

(** ** The correction of lines 113-127, cell by cell *)

Section Magnitude.

Implicit Types (s : Series) (v : list flutuante).

Lemma magnitude_map s : magnitude s = map (corretor (Pd.dropna s)) s.
Proof.
  unfold magnitude, corretor.
  destruct (0 <? List.length (Pd.dropna s))%nat; [|now rewrite map_id].
  destruct (Pd.any_lt dez (Pd.dropna s) && Pd.any_gt cem (Pd.dropna s)).
  - apply onde_map1.
  - destruct (Pd.max (Pd.dropna s)) as [mx|]; [|now rewrite map_id].
    destruct (Flt.ltb mx (Finito dez)); [reflexivity|now rewrite map_id].
Qed.

Lemma corretor_nan v : corretor v NaN = NaN.
Proof.
  unfold corretor. destruct (0 <? List.length v)%nat; [|reflexivity].
  destruct (Pd.any_lt dez v && Pd.any_gt cem v); [reflexivity|].
  destruct (Pd.max v) as [mx|]; [|reflexivity].
  now destruct (Flt.ltb mx (Finito dez)).
Qed.

Lemma corretor_cases v c : corretor v c = c \/ corretor v c = Pd.mul mil c.
Proof.
  unfold corretor. destruct (0 <? List.length v)%nat; [|now left].
  destruct (Pd.any_lt dez v && Pd.any_gt cem v).
  - destruct (Pd.lt dez c); auto.
  - destruct (Pd.max v) as [mx|]; [|now left].
    destruct (Flt.ltb mx (Finito dez)); auto.
Qed.


Lemma dropna_app s1 s2 : Pd.dropna (s1 ++ s2) = Pd.dropna s1 ++ Pd.dropna s2.
Proof.
  induction s1 as [|c s1 IH]; simpl; [reflexivity|].
  destruct c; simpl; now rewrite IH.
Qed.

(** The numbers left are the floats of the cells that hold a number. *)
Lemma dropna_In s x :
  In x (Pd.dropna s) <-> eh_numero x = true /\ In (celula_de x) s.
Proof.
  induction s as [|c s IH]; simpl; [tauto|].
  destruct c as [t|d|b|]; simpl; rewrite IH; clear IH.
  - split; [tauto|]. intros [Hx [H|H]]; [|tauto].
    destruct x; discriminate.
  - split.
    + intros [<-|H]; [split; [reflexivity|now left]|tauto].
    + intros [Hx [H|H]]; [|tauto]. left. destruct x; try discriminate.
      now injection H as ->.
  - split.
    + intros [<-|H]; [split; [reflexivity|now left]|tauto].
    + intros [Hx [H|H]]; [|tauto]. left. destruct x; try discriminate.
      now injection H as ->.
  - split; [tauto|]. intros [Hx [H|H]]; [|tauto].
    destruct x; discriminate.
Qed.

(** A missing cell takes no part in the correction of its siblings. *)
Lemma magnitude_missing s1 s2 :
  exists r1 r2,
    magnitude (s1 ++ NaN :: s2) = r1 ++ NaN :: r2 /\
    List.length r1 = List.length s1 /\
    r1 ++ r2 = magnitude (s1 ++ s2).
Proof.
  rewrite !magnitude_map.
  assert (Pd.dropna (s1 ++ NaN :: s2) = Pd.dropna (s1 ++ s2)) as ->
    by now rewrite !dropna_app.
  set (g := corretor (Pd.dropna (s1 ++ s2))).
  exists (map g s1), (map g s2).
  rewrite !map_app. simpl. unfold g at 2. rewrite corretor_nan.
  rewrite length_map. auto.
Qed.

Lemma length_pos_existsb {A} (p : A -> bool) (v : list A) :
  existsb p v = true -> (0 <? List.length v)%nat = true.
Proof. destruct v; simpl; [discriminate|reflexivity]. Qed.

(** Small and large values together: exactly the small ones are scaled. *)
Lemma magnitude_mista s :
  Pd.any_lt dez (Pd.dropna s) = true ->
  Pd.any_gt cem (Pd.dropna s) = true ->
  magnitude s = map (fun c => if Pd.lt dez c then Pd.mul mil c else c) s.
Proof.
  intros H1 H2. rewrite magnitude_map. apply map_ext. intros c.
  unfold corretor. rewrite H1, H2.
  now rewrite (length_pos_existsb _ _ H1).
Qed.

Lemma mul_texto k t : Pd.mul k (Texto t) = Texto t.
Proof. reflexivity. Qed.

Lemma mul_nan k : Pd.mul k NaN = NaN.
Proof. reflexivity. Qed.

(** All values small: every cell is scaled. *)
Lemma magnitude_pequenos s :
  forallb (fun x => Flt.ltb x (Finito dez)) (Pd.dropna s) = true ->
  magnitude s = map (Pd.mul mil) s.
Proof.
  intros Hall. rewrite magnitude_map.
  destruct (Pd.dropna s) as [|x v] eqn:Ev.
  - apply map_ext_in. intros c Hc. unfold corretor. simpl.
    destruct c as [t|d|b|]; try reflexivity.
    + assert (In (Finito d) (Pd.dropna s)) as H
        by (apply dropna_In; split; [reflexivity|exact Hc]).
      rewrite Ev in H. destruct H.
    + assert (In (Infinito b) (Pd.dropna s)) as H
        by (apply dropna_In; split; [reflexivity|exact Hc]).
      rewrite Ev in H. destruct H.
  - apply map_ext. intros c. unfold corretor.
    change (0 <? List.length (x :: v))%nat with true. cbv iota.
    assert (Pd.any_gt cem (x :: v) = false) as ->.
    { apply not_true_is_false. intros H.
      apply existsb_exists in H as (y & Hy & Hgt).
      rewrite forallb_forall in Hall. specialize (Hall y Hy).
      apply lt_dez_not_gt_cem in Hall. congruence. }
    rewrite andb_false_r.
    destruct (Pd.max (x :: v)) as [mx|] eqn:Em; [|discriminate].
    rewrite (max_lt _ _ _ (eq_trans (f_equal (forallb eh_numero) (eq_sym Ev))
                             (dropna_numero s)) Em).
    now rewrite Hall.
Qed.

(** Neither all small nor small and large together: nothing changes. *)
Lemma magnitude_nada s :
  forallb (fun x => Flt.ltb x (Finito dez)) (Pd.dropna s) = false ->
  Pd.any_lt dez (Pd.dropna s) && Pd.any_gt cem (Pd.dropna s) = false ->
  magnitude s = s.
Proof.
  intros Hall Hmix. unfold magnitude. rewrite Hmix.
  destruct (0 <? List.length (Pd.dropna s))%nat; [|reflexivity].
  destruct (Pd.max (Pd.dropna s)) as [mx|] eqn:Em; [|reflexivity].
  now rewrite (max_lt _ _ _ (dropna_numero s) Em), Hall.
Qed.

(** No number at all: nothing changes. *)
Lemma magnitude_vazia s : Pd.dropna s = [] -> magnitude s = s.
Proof. intros H. unfold magnitude. now rewrite H. Qed.

(** The three cases of lines 116-127. *)
Lemma magnitude_total s :
  magnitude s =
  if forallb (fun x => Flt.ltb x (Finito dez)) (Pd.dropna s)
  then map (Pd.mul mil) s
  else if Pd.any_lt dez (Pd.dropna s) && Pd.any_gt cem (Pd.dropna s)
  then map (fun c => if Pd.lt dez c then Pd.mul mil c else c) s
  else s.
Proof.
  destruct (forallb _ (Pd.dropna s)) eqn:Ha; [now apply magnitude_pequenos|].
  destruct (Pd.any_lt dez (Pd.dropna s) && Pd.any_gt cem (Pd.dropna s)) eqn:Hm.
  - apply andb_true_iff in Hm as [H1 H2]. now apply magnitude_mista.
  - now apply magnitude_nada.
Qed.

(** No cell below 10: nothing changes. *)
Lemma magnitude_sem_pequenos s :
  (forall c, In c s -> Pd.lt dez c = false) -> magnitude s = s.
Proof.
  intros H.
  assert (Pd.any_lt dez (Pd.dropna s) = false) as Hlt.
  { apply not_true_is_false. intros Hc.
    apply existsb_exists in Hc as (x & Hx & Hl).
    apply dropna_In in Hx as [Hn Hx]. specialize (H _ Hx).
    unfold Pd.lt in H. destruct x; simpl in *; congruence. }
  destruct (Pd.dropna s) as [|y w] eqn:Ew.
  - now apply magnitude_vazia.
  - apply magnitude_nada; rewrite Ew.
    + simpl in *. apply orb_false_iff in Hlt as [-> _]. reflexivity.
    + now rewrite Hlt.
Qed.

(** The product of a cell that holds no text holds no text. *)
Lemma mul_numerica k c :
  flutuante_de c <> None -> flutuante_de (Pd.mul k c) <> None.
Proof.
  unfold Pd.mul. destruct (flutuante_de c) as [x|]; [|congruence].
  intros _. now destruct (Flt.mul x (Finito k)).
Qed.

End Magnitude.

(** ** Columns of the result *)

Lemma eh_preco_In n : eh_preco n = true <-> In n colunas_preco.
Proof.
  unfold eh_preco. rewrite existsb_exists. split.
  - intros (x & Hx & E). apply String.eqb_eq in E. now subst.
  - intros H. exists n. split; [assumption|apply String.eqb_refl].
Qed.

Lemma eh_preco_not_In n : ~ In n colunas_preco -> eh_preco n = false.
Proof.
  intros H. apply not_true_is_false. intros E. now apply eh_preco_In in E.
Qed.

Lemma rotulos_unicos_check d : rotulos_unicos_b d = true -> rotulos_unicos d.
Proof.
  unfold rotulos_unicos_b, rotulos_unicos. rewrite forallb_forall.
  intros H col Hc. apply Nat.leb_le. now apply H.
Qed.

Lemma rotulo_duplicado_b (d : DataFrame) :
  rotulos_unicos_b d = false ->
  exists col, In col colunas_preco /\
    (2 <= List.length (Pd.selecionar col (nomes_limpos d)))%nat.
Proof.
  unfold rotulos_unicos_b, colunas_preco. cbn [forallb].
  rewrite andb_true_r. intros E. apply andb_false_iff in E as [E|E];
    apply Nat.leb_gt in E.
  - exists "Initial_Price"%string. split; [now left|lia].
  - exists "Final_Price"%string. split; [right; now left|lia].
Qed.

Lemma numerica_texto (s : Series) :
  numerica s <-> forall c, In c s -> flutuante_de c <> None.
Proof.
  split; intros H c Hc.
  - destruct (H c Hc) as [->|[(x & ->)|(b & ->)]]; discriminate.
  - specialize (H c Hc). destruct c as [t|x|b|]; eauto.
    now contradiction H.
Qed.

Lemma numerica_magnitude (s : Series) : numerica s -> numerica (magnitude s).
Proof.
  rewrite !numerica_texto. intros H c Hc. rewrite magnitude_map in Hc.
  apply in_map_iff in Hc as (c0 & <- & Hc0).
  destruct (corretor_cases (Pd.dropna s) c0) as [->| ->].
  - now apply H.
  - apply mul_numerica. now apply H.
Qed.

Lemma to_numeric_numerica {C : Conversoes} (s : Series) :
  numerica s -> map Pd.to_numeric s = s.
Proof.
  intros H. rewrite <- (map_id s) at 2. apply map_ext_in. intros c Hc.
  destruct (H c Hc) as [->|[(x & ->)|(b & ->)]]; reflexivity.
Qed.

Section Colunas.

Context {C : Conversoes}.

Lemma coluna_preco_resultado (d : DataFrame) j n (s : Series) :
  rotulos_unicos d -> d !! j = Some (n, s) -> In (Str.strip n) colunas_preco ->
  executar d = Ok (saida d) /\
  saida d !! j = Some (Str.strip n, coluna_preco s).
Proof.
  intros Hu Hj Hp. split; [now apply executar_unicos|].
  rewrite (saida_lookup _ _ _ _ Hj). unfold coluna_saida. cbn [fst snd].
  apply eh_preco_In in Hp. now rewrite Hp.
Qed.

Lemma outras_colunas (d : DataFrame) k n (s : Series) :
  d !! k = Some (n, s) ->
  saida d !! k =
  Some (Str.strip n, if eh_preco (Str.strip n) then coluna_preco s else s).
Proof. intros Hk. now rewrite (saida_lookup _ _ _ _ Hk). Qed.

Lemma coluna_preco_missing (pre pos : Series) c :
  analisar c = NaoNumero ->
  exists r1 r2,
    coluna_preco (pre ++ c :: pos) = r1 ++ NaN :: r2 /\
    List.length r1 = List.length pre /\
    r1 ++ r2 = coluna_preco (pre ++ pos).
Proof.
  intros Hc. unfold coluna_preco. rewrite !map_app. simpl. rewrite Hc.
  simpl.
  destruct (magnitude_missing (map (fun c => celula_de (analisar c)) pre)
                              (map (fun c => celula_de (analisar c)) pos))
    as (r1 & r2 & H1 & H2 & H3).
  exists r1, r2. rewrite length_map in H2. auto.
Qed.

Lemma coluna_preco_lookup (s : Series) i c :
  s !! i = Some c ->
  exists c', coluna_preco s !! i = Some c' /\
    (c' = celula_de (analisar c) \/ c' = Pd.mul mil (celula_de (analisar c))).
Proof.
  intros Hi. unfold coluna_preco. rewrite magnitude_map, !lookup_map, Hi.
  simpl. eexists. split; [reflexivity|]. apply corretor_cases.
Qed.


Lemma numerica_lida (s : Series) :
  numerica (map (fun c => celula_de (analisar c)) s).
Proof.
  intros c Hc. apply in_map_iff in Hc as (c0 & <- & _).
  destruct (analisar c0); simpl; eauto.
Qed.

Lemma numerica_coluna_preco (s : Series) : numerica (coluna_preco s).
Proof. apply numerica_magnitude, numerica_lida. Qed.

Lemma saida_lookup_inv (d : DataFrame) j n (s : Series) :
  saida d !! j = Some (n, s) ->
  exists n0 s0, d !! j = Some (n0, s0) /\ (n, s) = coluna_saida (n0, s0).
Proof.
  unfold saida. rewrite lookup_map.
  destruct (d !! j) as [[n0 s0]|]; [|discriminate].
  simpl. intros H. injection H as <- <-. eauto.
Qed.

Lemma normalizar_cases (d : DataFrame) :
  normalizar d = if rotulos_unicos_b d then Ok (saida d)
                 else Erro AttributeError.
Proof.
  destruct (rotulos_unicos_b d) eqn:E.
  - apply normalizar_unicos, rotulos_unicos_check, E.
  - apply rotulo_duplicado_b in E as (col & Hc & Hlen).
    rewrite <- executar_normalizar.
    eapply executar_rotulo_duplicado; eauto.
Qed.

Lemma columns_saida (d : DataFrame) :
  Pd.columns (saida d) = map Str.strip (Pd.columns d).
Proof. unfold Pd.columns, saida. rewrite !map_map. reflexivity. Qed.

(** The texts of the spec's examples after lines 96-108. *)
Lemma limpeza_exemplos :
  separadores (limpar_texto "1.200,00") = "1200.00"%string /\
  separadores (limpar_texto "1200,00") = "1200.00"%string /\
  separadores (limpar_texto "1200.00") = "1200.00"%string /\
  separadores (limpar_texto "R$ 50,00") = "50.00"%string /\
  separadores (limpar_texto "N/A") = "N/A"%string.
Proof. repeat split; vm_compute; reflexivity. Qed.

End Colunas.

(** ** Properties of the normalizer *)

Section Propriedades.

Context {C : Conversoes}.

(** C1. Every cell of a recognised price column is read as follows: its
    text ([str] of the cell) loses every ["R$"] and ["r$"] and the
    whitespace at its ends; if it then holds a comma and a point, the
    points are deleted and the commas become points; if it holds a comma
    and no point, the commas become points; otherwise it is left alone;
    the result is read as a float, and the column handed to the magnitude
    step holds these floats.  In particular ["1.200,00"], ["1200,00"] and
    ["1200.00"] are read as pandas reads ["1200.00"], and ["R$ 50,00"] as
    it reads ["50.00"]: as 1200 and 50. *)
Theorem C1_price_cell_parsing (d : DataFrame) (j : nat) (n : string)
    (s : Series) :
  rotulos_unicos d -> d !! j = Some (n, s) ->
  In (Str.strip n) colunas_preco ->
  (exists d', executar d = Ok d' /\
     d' !! j =
     Some (Str.strip n, magnitude (map (fun c => celula_de (analisar c)) s)))
  /\
  (forall c,
     analisar c =
     let t :=
       Str.strip (Str.replace "r$" "" (Str.replace "R$" "" (Pd.str_of c))) in
     ler
       (if Str.contains "," t && Str.contains "." t
        then Str.replace "," "." (Str.replace "." "" t)
        else if Str.contains "," t && negb (Str.contains "." t)
        then Str.replace "," "." t
        else t))
  /\ analisar (Texto "1.200,00") = ler "1200.00"
  /\ analisar (Texto "1200,00") = ler "1200.00"
  /\ analisar (Texto "1200.00") = ler "1200.00"
  /\ analisar (Texto "R$ 50,00") = ler "50.00"
  /\ (ler "1200.00" = Finito (dec_of_Z 1200) ->
      ler "50.00" = Finito (dec_of_Z 50) ->
      map (fun c => celula_de (analisar c))
        [Texto "1.200,00"; Texto "1200,00"; Texto "1200.00"; Texto "R$ 50,00"]
      = [Exemplos.d5 1200; Exemplos.d5 1200; Exemplos.d5 1200;
         Exemplos.d5 50]).
Proof.
  intros Hu Hj Hp.
  destruct limpeza_exemplos as (E1 & E2 & E3 & E4 & _).
  assert (forall t, analisar (Texto t) = ler (separadores (limpar_texto t)))
    as Ht by reflexivity.
  split; [|split; [|split; [|split; [|split; [|split]]]]].
  - exists (saida d).
    destruct (coluna_preco_resultado d j n s Hu Hj Hp) as [He Hl]. auto.
  - intros c. reflexivity.
  - now rewrite Ht, E1.
  - now rewrite Ht, E2.
  - now rewrite Ht, E3.
  - now rewrite Ht, E4.
  - intros H1 H2. cbn [map]. rewrite !Ht, E1, E2, E3, E4, H1, H2. reflexivity.
Qed.

(** C2. When the floats read from a price column contain one below 10
    and one above 100, exactly the cells below 10 are multiplied by 1000
    (the float64 product) and every other cell is kept; [5, 5, 200, 300]
    becomes [5000, 5000, 200, 300].  The test is made per column: what a
    price column becomes depends on its own cells only, so
    Initial_Price = [5, 200] becomes [5000, 200] while
    Final_Price = [150, 300] of the same table is kept. *)
Theorem C2_mixed_magnitude (d : DataFrame) (j : nat) (n : string)
    (s : Series) :
  let lidos := map (fun c => celula_de (analisar c)) s in
  rotulos_unicos d -> d !! j = Some (n, s) ->
  In (Str.strip n) colunas_preco ->
  Pd.any_lt dez (Pd.dropna lidos) = true ->
  Pd.any_gt cem (Pd.dropna lidos) = true ->
  (exists d', executar d = Ok d' /\
     d' !! j =
     Some (Str.strip n,
           map (fun c => if Pd.lt dez c then Pd.mul mil c else c) lidos) /\
     forall k n' (s' : Series),
       k <> j -> d !! k = Some (n', s') ->
       d' !! k =
       Some (Str.strip n',
             if eh_preco (Str.strip n') then coluna_preco s' else s'))
  /\ (forall v, Pd.lt dez (Numero v) = (mantissa v <? 10 * pow10 (escala v)))
  /\ (forall v, Pd.mul mil (Numero v) =
                celula_de
                  (F64.arredondar (MkDec (mantissa v * 1000) (escala v))))
  /\ Pd.lt dez NaN = false
  /\ magnitude [Exemplos.d5 5; Exemplos.d5 5; Exemplos.d5 200; Exemplos.d5 300]
     = [Exemplos.d5 5000; Exemplos.d5 5000; Exemplos.d5 200; Exemplos.d5 300]
  /\ magnitude [Exemplos.d5 5; Exemplos.d5 200]
     = [Exemplos.d5 5000; Exemplos.d5 200]
  /\ magnitude [Exemplos.d5 150; Exemplos.d5 300]
     = [Exemplos.d5 150; Exemplos.d5 300].
Proof.
  intros lidos Hu Hj Hp H1 H2.
  split; [|split; [|split; [|split; [reflexivity|]]]].
  - exists (saida d).
    destruct (coluna_preco_resultado d j n s Hu Hj Hp) as [He Hl].
    split; [assumption|]. split.
    + rewrite Hl. do 2 f_equal. unfold coluna_preco. fold lidos.
      now apply magnitude_mista.
    + intros k n' s' _ Hk. now apply outras_colunas.
  - intros v. unfold Pd.lt, Flt.ltb, dec_ltb, dez, dec_of_Z.
    cbn [flutuante_de mantissa escala]. change (pow10 0) with 1.
    now rewrite Z.mul_1_r.
  - intros v. unfold Pd.mul, Flt.mul, mil, dec_of_Z.
    cbn [flutuante_de mantissa escala]. now rewrite Nat.add_0_r.
  - repeat split; vm_compute; reflexivity.
Qed.

(** C3. If every float read from a price column is below 10, every cell
    of the column is multiplied by 1000 ([1, 2, 3] becomes
    [1000, 2000, 3000]); otherwise, if the column does not hold a number
    below 10 together with one above 100 either, it is kept
    ([150, 200, 300] stays); and a column from which no number was read
    is kept. *)
Theorem C3_all_small_or_none (d : DataFrame) (j : nat) (n : string)
    (s : Series) :
  rotulos_unicos d -> d !! j = Some (n, s) ->
  In (Str.strip n) colunas_preco ->
  let lidos := map (fun c => celula_de (analisar c)) s in
  (exists d', executar d = Ok d' /\
     d' !! j =
     Some (Str.strip n,
           if forallb (fun x => Flt.ltb x (Finito dez)) (Pd.dropna lidos)
           then map (Pd.mul mil) lidos
           else if Pd.any_lt dez (Pd.dropna lidos)
                   && Pd.any_gt cem (Pd.dropna lidos)
           then magnitude lidos
           else lidos))
  /\ (Pd.dropna lidos = [] -> magnitude lidos = lidos)
  /\ magnitude [Exemplos.d5 1; Exemplos.d5 2; Exemplos.d5 3]
     = [Exemplos.d5 1000; Exemplos.d5 2000; Exemplos.d5 3000]
  /\ magnitude [Exemplos.d5 150; Exemplos.d5 200; Exemplos.d5 300]
     = [Exemplos.d5 150; Exemplos.d5 200; Exemplos.d5 300]
  /\ magnitude [Inf false; Exemplos.d5 50; Exemplos.d5 5]
     = [Inf false; Exemplos.d5 50; Exemplos.d5 5000].
Proof.
  intros Hu Hj Hp lidos.
  split; [|split; [apply magnitude_vazia|repeat split; vm_compute; reflexivity]].
  exists (saida d).
  destruct (coluna_preco_resultado d j n s Hu Hj Hp) as [He Hl].
  split; [assumption|]. rewrite Hl. do 2 f_equal.
  unfold coluna_preco. fold lidos. rewrite (magnitude_total lidos) at 1.
  destruct (forallb _ (Pd.dropna lidos)); [reflexivity|].
  destruct (Pd.any_lt dez (Pd.dropna lidos) && Pd.any_gt cem (Pd.dropna lidos))
    eqn:Hm; [|reflexivity].
  apply andb_true_iff in Hm as [H1 H2]. symmetry. now apply magnitude_mista.
Qed.

(** C4, amended.  In a table where no recognised price label occurs twice
    once the labels are stripped, a cell of a price column whose cleaned
    text pandas reads as no number raises nothing: the call returns, that
    cell is the missing marker in the result, its siblings are what the
    column without that cell would give, and every other column is treated
    as usual.  The text ["N/A"] reaches pandas as it is. *)
Theorem C4_unparseable_cell (d : DataFrame) (j : nat) (n : string)
    (pre pos : Series) (c : celula) :
  rotulos_unicos d -> d !! j = Some (n, pre ++ c :: pos) ->
  In (Str.strip n) colunas_preco ->
  analisar c = NaoNumero ->
  (exists d' r1 r2,
     executar d = Ok d' /\
     d' !! j = Some (Str.strip n, r1 ++ NaN :: r2) /\
     List.length r1 = List.length pre /\
     r1 ++ r2 = coluna_preco (pre ++ pos) /\
     forall k n' (s' : Series),
       k <> j -> d !! k = Some (n', s') ->
       d' !! k =
       Some (Str.strip n',
             if eh_preco (Str.strip n') then coluna_preco s' else s'))
  /\ analisar (Texto "N/A") = ler "N/A".
Proof.
  intros Hu Hj Hp Hc. split.
  - destruct (coluna_preco_resultado d j n _ Hu Hj Hp) as [He Hl].
    destruct (coluna_preco_missing pre pos c Hc) as (r1 & r2 & H1 & H2 & H3).
    exists (saida d), r1, r2. rewrite <- H1. repeat split; try assumption.
    intros k n' s' _ Hk. now apply outras_colunas.
  - destruct limpeza_exemplos as (_ & _ & _ & _ & E).
    unfold analisar. cbn [Pd.str_of]. now rewrite E.
Qed.






(** C10. A cell of a recognised price column that is the missing marker
    in the input is the missing marker in the result: its text ["nan"] is
    read back as missing, and neither branch of the correction turns a
    missing cell into a number. *)
Theorem C10_missing_stays_missing (d : DataFrame) (j : nat) (n : string)
    (s : Series) (i : nat) :
  rotulos_unicos d -> d !! j = Some (n, s) ->
  In (Str.strip n) colunas_preco ->
  s !! i = Some NaN ->
  (exists d' (s' : Series),
     executar d = Ok d' /\ d' !! j = Some (Str.strip n, s') /\
     s' !! i = Some NaN)
  /\ Pd.to_numeric (Pd.astype_str NaN) = NaN
  /\ Pd.lt dez NaN = false
  /\ Pd.mul mil NaN = NaN.
Proof.
  assert (analisar NaN = NaoNumero) as Hn by apply ler_nan.
  intros Hu Hj Hp Hi. split; [|split; [|split; reflexivity]].
  - destruct (coluna_preco_resultado d j n s Hu Hj Hp) as [He Hl].
    exists (saida d), (coluna_preco s). repeat split; try assumption.
    destruct (coluna_preco_lookup s i NaN Hi) as (c' & Hc & [->| ->]);
      rewrite Hn in Hc; exact Hc.
  - unfold Pd.astype_str, Pd.to_numeric. cbn [Pd.str_of].
    now rewrite ler_nan.
Qed.

(** ** Further properties of the normalizer *)

(** X1. After a call that returns, a recognised price column holds
    numbers (finite or infinite) and missing markers only, no text, so
    coercing it to numbers once more (as lines 606-607 do) changes
    nothing. *)
Theorem X1_price_columns_numeric (d d' : DataFrame) (j : nat) (n : string)
    (s : Series) :
  executar d = Ok d' -> d' !! j = Some (n, s) -> In n colunas_preco ->
  (forall c, In c s ->
     c = NaN \/ (exists x, c = Numero x) \/ (exists negativo, c = Inf negativo))
  /\ map Pd.to_numeric s = s.
Proof.
  intros He Hj Hp. apply executar_ok_inv in He as [_ ->].
  apply saida_lookup_inv in Hj as (n0 & s0 & _ & Heq).
  unfold coluna_saida in Heq. cbn [fst snd] in Heq.
  injection Heq as -> ->. apply eh_preco_In in Hp. rewrite Hp.
  pose proof (numerica_coluna_preco s0) as Hn.
  split; [exact Hn|now apply to_numeric_numerica].
Qed.


(** X3. A price column whose cells are all read back as themselves from
    their own text (numbers that survive [str] followed by
    [pd.to_numeric], and missing markers) and none of which is below 10
    comes back as it was. *)
Theorem X3_clean_numeric_column_kept (d : DataFrame) (j : nat) (n : string)
    (s : Series) :
  rotulos_unicos d -> d !! j = Some (n, s) ->
  In (Str.strip n) colunas_preco ->
  (forall c, In c s -> celula_de (analisar c) = c) ->
  (forall c, In c s -> Pd.lt dez c = false) ->
  exists d', executar d = Ok d' /\ d' !! j = Some (Str.strip n, s).
Proof.
  intros Hu Hj Hp Hr Hbig. exists (saida d).
  destruct (coluna_preco_resultado d j n s Hu Hj Hp) as [He Hl].
  split; [assumption|]. rewrite Hl. do 2 f_equal. unfold coluna_preco.
  assert (map (fun c => celula_de (analisar c)) s = s) as ->.
  { rewrite <- (map_id s) at 2. now apply map_ext_in. }
  now apply magnitude_sem_pequenos.
Qed.


End Propriedades.

(** X17. The product with 1000 of an integer price is exact as long as
    it stays below 2 ^ 53: on such prices the float64 product of lines 124
    and 127 is the integer product, whether pandas holds the column as
    float64 or as int64. *)
Theorem X17_integer_price_times_1000 (z : Z) :
  Z.abs z * 1000 < 2 ^ 53 ->
  Pd.mul mil (Numero (dec_of_Z z)) = Numero (dec_of_Z (z * 1000)).
Proof.
  intros H. unfold Pd.mul, Flt.mul, mil, dec_of_Z.
  cbn [flutuante_de mantissa escala Nat.add].
  rewrite arredondar_inteiro by lia. reflexivity.
Qed.

(** ** Price bands *)

Section Bands.

Variable float_str : string -> option flutuante.

Lemma faixas_tiling : faixas = faixas_de 0 20.
Proof. reflexivity. Qed.

Lemma finito_le k d :
  Flt.le_int k (Finito d) = (k * pow10 (escala d) <=? mantissa d).
Proof.
  unfold Flt.le_int, dec_ltb, dec_of_Z. cbn [mantissa escala].
  change (pow10 0) with 1. rewrite Z.mul_1_r.
  destruct (Z.ltb_spec (mantissa d) (k * pow10 (escala d)));
    destruct (Z.leb_spec (k * pow10 (escala d)) (mantissa d)); simpl;
    try reflexivity; lia.
Qed.

Lemma finito_lt k d :
  Flt.lt_int (Finito d) k = (mantissa d <? k * pow10 (escala d)).
Proof.
  unfold Flt.lt_int, dec_ltb, dec_of_Z. cbn [mantissa escala].
  change (pow10 0) with 1. now rewrite Z.mul_1_r.
Qed.

Lemma procurar_faixa_dentro d a n :
  50 * Z.of_nat a * pow10 (escala d) <= mantissa d <
  50 * Z.of_nat (a + n) * pow10 (escala d) ->
  let k := mantissa d / (50 * pow10 (escala d)) in
  procurar_faixa (faixas_de a n) (Finito d) =
    Some (rotulo_faixa (50 * k) (50 * k + 50)) /\
  Z.of_nat a <= k < Z.of_nat (a + n).
Proof.
  intros H k. pose proof (pow10_pos (escala d)) as Hp.
  revert a H. induction n as [|n IH]; intros a H.
  - rewrite Nat.add_0_r in H. lia.
  - unfold faixas_de. cbn [seq map procurar_faixa]. fold (faixas_de (S a) n).
    rewrite finito_le, finito_lt.
    destruct (Z.leb_spec (50 * Z.of_nat a * pow10 (escala d)) (mantissa d));
      [|lia].
    destruct (Z.ltb_spec (mantissa d)
                ((50 * Z.of_nat a + 50) * pow10 (escala d))); cbn [andb].
    + assert (k = Z.of_nat a) as ->.
      { unfold k. symmetry. apply Z.div_unique_pos
          with (r := mantissa d - 50 * Z.of_nat a * pow10 (escala d)); lia. }
      split; [reflexivity|lia].
    + destruct (IH (S a)) as [Ha Hb]; [|split; [exact Ha|lia]].
      replace (S a + n)%nat with (a + S n)%nat by lia. lia.
Qed.

Lemma procurar_faixa_abaixo d a n :
  mantissa d < 50 * Z.of_nat a * pow10 (escala d) ->
  procurar_faixa (faixas_de a n) (Finito d) = None.
Proof.
  pose proof (pow10_pos (escala d)) as Hp.
  revert a. induction n as [|n IH]; intros a H; [reflexivity|].
  unfold faixas_de. cbn [seq map procurar_faixa]. fold (faixas_de (S a) n).
  rewrite finito_le.
  destruct (Z.leb_spec (50 * Z.of_nat a * pow10 (escala d)) (mantissa d));
    [lia|]. cbn [andb]. apply IH. nia.
Qed.

Lemma procurar_faixa_acima d a n :
  50 * Z.of_nat (a + n) * pow10 (escala d) <= mantissa d ->
  procurar_faixa (faixas_de a n) (Finito d) = None.
Proof.
  pose proof (pow10_pos (escala d)) as Hp.
  revert a. induction n as [|n IH]; intros a H; [reflexivity|].
  unfold faixas_de. cbn [seq map procurar_faixa]. fold (faixas_de (S a) n).
  rewrite finito_lt.
  destruct (Z.ltb_spec (mantissa d)
              ((50 * Z.of_nat a + 50) * pow10 (escala d))); [nia|].
  rewrite andb_false_r. apply IH.
  replace (S a + n)%nat with (a + S n)%nat by lia. exact H.
Qed.

Lemma procurar_faixa_fora fs x :
  match x with Finito _ => False | _ => True end ->
  procurar_faixa fs x = None.
Proof.
  intros Hx. induction fs as [|[low high] fs IH]; [reflexivity|].
  cbn [procurar_faixa]. destruct x as [d|[]|]; try contradiction; simpl;
    exact IH.
Qed.

Lemma procurar_faixa_In fs x r :
  procurar_faixa fs x = Some r ->
  In r (map (fun f : Z * Z => rotulo_faixa (fst f) (snd f)) fs).
Proof.
  induction fs as [|[low high] fs IH]; [discriminate|].
  cbn [procurar_faixa map fst snd].
  destruct (Flt.le_int low x && Flt.lt_int x high).
  - intros H. injection H as <-. now left.
  - intros H. right. now apply IH.
Qed.

Lemma rotulos_ordem :
  (map (fun f : Z * Z => rotulo_faixa (fst f) (snd f)) faixas
   ++ ["1000+"%string]) = ordem_faixas.
Proof. vm_compute. reflexivity. Qed.

Lemma mil_bound d :
  dec_ltb d mil = (mantissa d <? 1000 * pow10 (escala d)).
Proof.
  unfold dec_ltb, mil, dec_of_Z. cbn [mantissa escala].
  change (pow10 0) with 1. now rewrite Z.mul_1_r.
Qed.

Lemma banda_do_preco (d : Dec) :
  0 <= mantissa d -> dec_ltb d mil = true ->
  let k := mantissa d / (50 * pow10 (escala d)) in
  categorizar_faixa_preco float_str (Numero d) =
    Some (rotulo_faixa (50 * k) (50 * k + 50)) /\
  0 <= k < 20.
Proof.
  intros H0 H1 k. rewrite mil_bound in H1. apply Z.ltb_lt in H1.
  unfold categorizar_faixa_preco, float_de. rewrite faixas_tiling.
  destruct (procurar_faixa_dentro d 0 20) as [Hf Hk].
  - cbn [Z.of_nat Nat.add]. lia.
  - fold k in Hf, Hk. rewrite Hf. split; [reflexivity|]. cbn in Hk. lia.
Qed.

Lemma banda_mil_ou_mais (d : Dec) :
  dec_ltb d mil = false ->
  categorizar_faixa_preco float_str (Numero d) = Some "1000+"%string.
Proof.
  intros H. unfold categorizar_faixa_preco, float_de. rewrite faixas_tiling.
  rewrite procurar_faixa_acima.
  - unfold Flt.ge_int. fold mil. now rewrite H.
  - rewrite mil_bound in H. apply Z.ltb_ge in H.
    cbn [Z.of_nat Nat.add]. lia.
Qed.

(** X5. A finite price [p] with [0 <= p < 1000] gets the band
    ["50k-50(k+1)"] with [k = floor (p / 50)]: the twenty hard-coded bands
    tile [0, 1000) in steps of 50, lower bound included, upper bound
    excluded. *)
Theorem X5_band_of_price (d : Dec) :
  0 <= mantissa d -> dec_ltb d mil = true ->
  let k := mantissa d / (50 * pow10 (escala d)) in
  categorizar_faixa_preco float_str (Numero d) =
    Some (rotulo_faixa (50 * k) (50 * k + 50)) /\
  0 <= k < 20.
Proof. intros H0 H1. now apply banda_do_preco. Qed.

(** X6. A finite price of 1000 or more, and plus infinity, get ["1000+"]. *)
Theorem X6_band_thousand_plus (d : Dec) :
  dec_ltb d mil = false ->
  categorizar_faixa_preco float_str (Numero d) = Some "1000+"%string /\
  (forall s, float_str s = Some (Infinito false) ->
     categorizar_faixa_preco float_str (Texto s) = Some "1000+"%string).
Proof.
  intros H. split.
  - now apply banda_mil_ou_mais.
  - intros s Hs. unfold categorizar_faixa_preco, float_de. rewrite Hs.
    now rewrite procurar_faixa_fora.
Qed.

(** X7. A negative price gets no band at all: no band holds it, it is not
    at least 1000, and the function ends without returning (Python's
    [None]).  The same holds for a missing price, although a text that
    cannot be converted gets ["0-50"]. *)
Theorem X7_negative_or_missing_unlabelled (d : Dec) :
  mantissa d < 0 ->
  categorizar_faixa_preco float_str (Numero d) = None /\
  categorizar_faixa_preco float_str NaN = None /\
  (forall s, float_str s = None ->
     categorizar_faixa_preco float_str (Texto s) = Some "0-50"%string).
Proof.
  intros H. pose proof (pow10_pos (escala d)) as Hp. split; [|split].
  - unfold categorizar_faixa_preco, float_de. rewrite faixas_tiling.
    rewrite procurar_faixa_abaixo by (cbn [Z.of_nat]; lia).
    unfold Flt.ge_int. fold mil. rewrite mil_bound.
    destruct (Z.ltb_spec (mantissa d) (1000 * pow10 (escala d)));
      [reflexivity|lia].
  - unfold categorizar_faixa_preco, float_de.
    now rewrite procurar_faixa_fora.
  - intros s Hs. unfold categorizar_faixa_preco, float_de. now rewrite Hs.
Qed.

(** X8. Every label the function returns is an entry of [ordem_faixas],
    the category list of the comparison chart (line 643): no returned label
    falls outside the chart's categories. *)
Theorem X8_labels_in_ordem_faixas (preco : celula) (r : string) :
  categorizar_faixa_preco float_str preco = Some r -> In r ordem_faixas.
Proof.
  unfold categorizar_faixa_preco. rewrite <- rotulos_ordem.
  destruct (float_de float_str preco) as [x|].
  - destruct (procurar_faixa faixas x) as [r'|] eqn:E.
    + intros H. injection H as <-. apply in_or_app. left.
      now apply procurar_faixa_In in E.
    + destruct (Flt.ge_int x 1000); [|discriminate].
      intros H. injection H as <-. apply in_or_app. right. now left.
  - intros H. injection H as <-. apply in_or_app. left. now left.
Qed.

Lemma ordem_faixas_lookup k :
  0 <= k < 20 ->
  ordem_faixas !! Z.to_nat k = Some (rotulo_faixa (50 * k) (50 * k + 50)).
Proof.
  intros H.
  assert (k = 0 \/ k = 1 \/ k = 2 \/ k = 3 \/ k = 4 \/ k = 5 \/ k = 6 \/
          k = 7 \/ k = 8 \/ k = 9 \/ k = 10 \/ k = 11 \/ k = 12 \/
          k = 13 \/ k = 14 \/ k = 15 \/ k = 16 \/ k = 17 \/ k = 18 \/
          k = 19) as Hk by lia.
  repeat (destruct Hk as [-> | Hk]; [vm_compute; reflexivity|]).
  subst. vm_compute. reflexivity.
Qed.

Lemma categorizar_indice d :
  0 <= mantissa d ->
  categorizar_faixa_preco float_str (Numero d) =
  ordem_faixas !! indice_faixa d.
Proof.
  intros H0. pose proof (pow10_pos (escala d)) as Hp. unfold indice_faixa.
  destruct (dec_ltb d mil) eqn:E.
  - destruct (banda_do_preco d H0 E) as [Hc Hk].
    rewrite Hc, Z.min_l by lia. symmetry. now apply ordem_faixas_lookup.
  - rewrite (banda_mil_ou_mais d E).
    rewrite mil_bound in E. apply Z.ltb_ge in E.
    assert (20 <= mantissa d / (50 * pow10 (escala d)))
      by (apply Z.div_le_lower_bound; lia).
    rewrite Z.min_r by lia. reflexivity.
Qed.

Lemma indice_faixa_mono d1 d2 :
  0 <= mantissa d1 -> dec_ltb d2 d1 = false ->
  (indice_faixa d1 <= indice_faixa d2)%nat.
Proof.
  intros H0 Hle. unfold dec_ltb in Hle. apply Z.ltb_ge in Hle.
  pose proof (pow10_pos (escala d1)) as Hp1.
  pose proof (pow10_pos (escala d2)) as Hp2.
  unfold indice_faixa. apply Z2Nat.inj_le.
  - apply Z.min_glb; [apply Z.div_pos; lia|lia].
  - apply Z.min_glb; [apply Z.div_pos; nia|lia].
  - apply Z.min_le_compat_r.
    rewrite <- (Z.div_mul_cancel_r (mantissa d1) (50 * pow10 (escala d1))
                  (pow10 (escala d2))) by lia.
    rewrite <- (Z.div_mul_cancel_r (mantissa d2) (50 * pow10 (escala d2))
                  (pow10 (escala d1))) by lia.
    replace (50 * pow10 (escala d2) * pow10 (escala d1))
      with (50 * pow10 (escala d1) * pow10 (escala d2)) by lia.
    apply Z.div_le_mono; nia.
Qed.

Lemma ordem_faixas_NoDup : NoDup ordem_faixas.
Proof. apply (bool_decide_unpack _). vm_compute. exact I. Qed.

(** X9. The band of a non-negative price [p] is entry
    [min (floor (p / 50)) 20] of [ordem_faixas], whose entries are all
    different, so a higher price never gets an earlier band of the
    comparison chart. *)
Theorem X9_bands_follow_prices (d1 d2 : Dec) :
  0 <= mantissa d1 -> dec_ltb d2 d1 = false ->
  let i1 := Z.to_nat (Z.min (mantissa d1 / (50 * pow10 (escala d1))) 20) in
  let i2 := Z.to_nat (Z.min (mantissa d2 / (50 * pow10 (escala d2))) 20) in
  categorizar_faixa_preco float_str (Numero d1) = ordem_faixas !! i1 /\
  categorizar_faixa_preco float_str (Numero d2) = ordem_faixas !! i2 /\
  (i1 <= i2 < 21)%nat /\
  NoDup ordem_faixas.
Proof.
  intros H0 Hle i1 i2.
  change i1 with (indice_faixa d1). change i2 with (indice_faixa d2).
  assert (0 <= mantissa d2) as H2.
  { unfold dec_ltb in Hle. apply Z.ltb_ge in Hle.
    pose proof (pow10_pos (escala d1)). pose proof (pow10_pos (escala d2)).
    nia. }
  split; [now apply categorizar_indice|].
  split; [now apply categorizar_indice|].
  split; [|apply ordem_faixas_NoDup].
  split; [now apply indice_faixa_mono|].
  unfold indice_faixa. lia.
Qed.

End Bands.

(** ** Money formatting *)

Section Swap.

Local Open Scope string_scope.

Lemma mapear_app f s1 s2 : mapear f (s1 ++ s2) = mapear f s1 ++ mapear f s2.
Proof.
  induction s1 as [|c s1 IH]; [reflexivity|].
  rewrite append_cons. cbn [mapear]. now rewrite append_cons, IH.
Qed.

Lemma mapear_id_on (P : ascii -> bool) f s :
  (forall c, P c = true -> f c = c) -> todos P s = true -> mapear f s = s.
Proof.
  intros Hf. induction s as [|c s IH]; [reflexivity|].
  cbn [todos mapear]. rewrite andb_true_iff. intros [Hc Hs].
  now rewrite (Hf c Hc), IH.
Qed.

Lemma replace_char_mapear a b s :
  Str.replace (String a "") (String b "") s =
  mapear (fun c => if Ascii.eqb a c then b else c) s.
Proof.
  induction s as [|c s IH]; [reflexivity|].
  rewrite replace_char_cons. cbn [mapear]. rewrite IH.
  destruct (ascii_dec a c) as [->|Hne].
  - now rewrite Ascii.eqb_refl.
  - apply Ascii.eqb_neq in Hne. now rewrite Hne.
Qed.

(** The three replacements of line 163 exchange commas and points when
    the text holds no ["X"]. *)
Lemma cadeia_troca s :
  todos sem_X s = true ->
  Str.replace "X" "." (Str.replace "." "," (Str.replace "," "X" s)) =
  mapear troca_sep s.
Proof.
  rewrite !replace_char_mapear.
  induction s as [|c s IH]; [reflexivity|].
  cbn [todos mapear]. rewrite andb_true_iff. intros [Hc Hs].
  rewrite IH by assumption. f_equal.
  unfold sem_X in Hc. apply negb_true_iff in Hc. unfold troca_sep.
  rewrite (Ascii.eqb_sym c ","), (Ascii.eqb_sym c ".").
  destruct (Ascii.eqb "," c) eqn:E1.
  - reflexivity.
  - destruct (Ascii.eqb "." c) eqn:E2; [reflexivity|].
    now rewrite (Ascii.eqb_sym "X" c), Hc.
Qed.

Lemma mapear_sem_X s :
  todos sem_X s = true -> todos sem_X (mapear troca_sep s) = true.
Proof.
  induction s as [|c s IH]; [reflexivity|].
  cbn [todos mapear]. rewrite !andb_true_iff. intros [Hc Hs].
  split; [|now apply IH]. unfold troca_sep.
  destruct (Ascii.eqb c ","); [reflexivity|].
  destruct (Ascii.eqb c "."); [reflexivity|assumption].
Qed.

Lemma troca_digito c : eh_digito c = true -> troca_sep c = c.
Proof.
  destruct c as [[] [] [] [] [] [] [] []]; vm_compute; intros H;
    try discriminate; reflexivity.
Qed.

Lemma agrupar_troca s :
  todos eh_digito s = true ->
  mapear troca_sep (agrupar "," s) = agrupar "." s.
Proof.
  induction s as [|c s IH]; [reflexivity|].
  cbn [todos agrupar mapear]. rewrite andb_true_iff. intros [Hc Hs].
  rewrite (troca_digito c Hc). f_equal.
  destruct ((0 <? String.length s)%nat && (String.length s mod 3 =? 0)%nat).
  - cbn [mapear]. now rewrite IH.
  - now apply IH.
Qed.

End Swap.

Section FormatarProps.

Local Open Scope string_scope.

Variable format_2f : flutuante -> string.

Lemma formatar_reais_num valor x :
  flutuante_de valor = Some x ->
  todos sem_X (format_2f x) = true ->
  formatar_reais format_2f valor =
  Texto ("R$ " ++ mapear troca_sep (format_2f x)).
Proof.
  intros Hx Hs. unfold formatar_reais, texto_reais.
  destruct valor as [t|d|b|]; [discriminate| | |]; injection Hx as <-;
    (rewrite cadeia_troca; [now rewrite mapear_app|]);
    rewrite todos_app, Hs; reflexivity.
Qed.

(** X10. On a number whose formatted text holds no ["X"],
    [formatar_reais] exchanges every comma and point of that text and
    changes nothing else; the result holds no ["X"].  On a text the
    format raises and the value is returned as it is, so formatting a
    formatted value changes nothing. *)
Theorem X10_formatar_reais_swaps (valor : celula) (x : flutuante) :
  flutuante_de valor = Some x ->
  todos sem_X (format_2f x) = true ->
  formatar_reais format_2f valor =
    Texto ("R$ " ++ mapear troca_sep (format_2f x)) /\
  todos sem_X ("R$ " ++ mapear troca_sep (format_2f x)) = true /\
  formatar_reais format_2f (formatar_reais format_2f valor) =
    formatar_reais format_2f valor.
Proof.
  intros Hx Hs. rewrite (formatar_reais_num valor x Hx Hs).
  split; [reflexivity|]. split; [|reflexivity].
  rewrite todos_app, mapear_sem_X by assumption. reflexivity.
Qed.

(** X11. When the formatted text of a number has the layout sign,
    digits in groups of three separated by commas, point, digits, the
    result has the Brazilian layout: ["R$ "], sign, the same groups
    separated by points, comma, the same decimals. *)
Theorem X11_formatar_reais_layout (valor : celula) (x : flutuante)
    (sinal inteiro centavos : string) :
  flutuante_de valor = Some x ->
  (sinal = "" \/ sinal = "-") ->
  todos eh_digito inteiro = true -> todos eh_digito centavos = true ->
  format_2f x = sinal ++ agrupar "," inteiro ++ "." ++ centavos ->
  formatar_reais format_2f valor =
  Texto ("R$ " ++ sinal ++ agrupar "." inteiro ++ "," ++ centavos).
Proof.
  intros Hx Hsig Hi Hc Hf.
  assert (forall s, todos eh_digito s = true -> todos sem_X s = true) as Hd.
  { intros s. apply todos_impl. intros c.
    destruct c as [[] [] [] [] [] [] [] []]; vm_compute; intros H;
      try discriminate; reflexivity. }
  assert (mapear troca_sep (format_2f x) =
          sinal ++ agrupar "." inteiro ++ "," ++ centavos) as Hm.
  { rewrite Hf, !mapear_app, (agrupar_troca inteiro Hi).
    rewrite (mapear_id_on eh_digito troca_sep centavos troca_digito Hc).
    destruct Hsig as [-> | ->]; reflexivity. }
  rewrite (formatar_reais_num valor x Hx); [now rewrite Hm|].
  assert (todos sem_X (mapear troca_sep (mapear troca_sep (format_2f x)))
          = true) as Hxx.
  { rewrite Hm, !mapear_app, !todos_app.
    assert (todos sem_X (mapear troca_sep (agrupar "." inteiro)) = true) as ->.
    { rewrite <- (agrupar_troca inteiro Hi). apply mapear_sem_X, mapear_sem_X.
      clear -Hi Hd. induction inteiro as [|c s IH]; [reflexivity|].
      cbn [todos agrupar] in *. apply andb_true_iff in Hi as [Hc Hs].
      assert (sem_X c = true) as ->
        by (specialize (Hd (String c "")); cbn [todos] in Hd;
            rewrite Hc in Hd; specialize (Hd eq_refl);
            now apply andb_true_iff in Hd).
      destruct ((0 <? String.length s)%nat && (String.length s mod 3 =? 0)%nat);
        cbn [todos andb]; auto. }
    rewrite (mapear_id_on eh_digito troca_sep centavos troca_digito Hc).
    rewrite (Hd centavos Hc).
    destruct Hsig as [-> | ->]; reflexivity. }
  assert (forall s, mapear troca_sep (mapear troca_sep s) = s) as Hinv.
  { induction s as [|c s IH]; [reflexivity|]. cbn [mapear]. rewrite IH.
    f_equal. destruct c as [[] [] [] [] [] [] [] []]; reflexivity. }
  now rewrite Hinv in Hxx.
Qed.

End FormatarProps.

(** ** The upload handler *)

Section Upload.

Context {C : Conversoes}.

Lemma preparar_run (df_temp : ref) (d : DataFrame) (h : heap) :
  h !! df_temp = Some d ->
  preparar df_temp h =
  match normalizar d with
  | Ok d' =>
      Ok ((df_temp,
           forallb (fun col => existsb (String.eqb col) (Pd.columns d'))
                   required_cols),
          <[df_temp := d']> h)
  | Erro e => Erro e
  end.
Proof.
  intros Hh. unfold preparar, bind at 1.
  rewrite (processar_valores_monetarios_run df_temp d h Hh).
  destruct (normalizar d) as [d'|e]; [|reflexivity].
  unfold bind, get_columns, deref, bind, ret. now rewrite lookup_insert_eq.
Qed.

Lemma carregar_arquivo_cases (df_temp : ref) lido (e : sessao) :
  carregar_arquivo df_temp lido e =
  match lido with
  | Ok d =>
      if rotulos_unicos_b d then
        if forallb (fun col => existsb (String.eqb col)
                                 (map Str.strip (Pd.columns d))) required_cols
        then MkSessao (<[df_temp := saida d]> (loja e)) (Some df_temp)
                      (avisos e ++ [Sucesso; Informacao])
        else MkSessao (<[df_temp := saida d]> (loja e)) (atual e)
                      (avisos e ++ [Falha; Informacao; Alerta])
      else MkSessao (loja e) (atual e) (avisos e ++ [Falha])
  | Erro _ => MkSessao (loja e) (atual e) (avisos e ++ [Falha])
  end.
Proof.
  unfold carregar_arquivo. destruct lido as [d|ex]; [|reflexivity].
  rewrite (preparar_run df_temp d) by apply lookup_insert_eq.
  rewrite normalizar_cases.
  destruct (rotulos_unicos_b d); [|reflexivity].
  rewrite columns_saida, insert_insert_eq.
  now destruct (forallb _ required_cols).
Qed.

(** X12. An upload replaces the current table exactly when the file was
    read, its price labels are unambiguous and the four required labels
    are among its stripped labels; the current table is then the normalized
    one.  In every other case (unreadable file, exception, missing column)
    the current table stays the one it was.  Either way no table already in
    memory is changed. *)
Theorem X12_upload_replaces_iff_accepted (df_temp : ref)
    (lido : resultado DataFrame) (e : sessao) :
  loja e !! df_temp = None ->
  let e' := carregar_arquivo df_temp lido e in
  (if aceito lido
   then atual e' = Some df_temp /\
        (exists d, lido = Ok d /\ loja e' !! df_temp = Some (saida d)) /\
        avisos e' = avisos e ++ [Sucesso; Informacao]
   else atual e' = atual e /\
        exists resto, avisos e' = avisos e ++ Falha :: resto) /\
  (forall r t, loja e !! r = Some t -> loja e' !! r = Some t).
Proof.
  intros Hf e'. subst e'. rewrite carregar_arquivo_cases.
  unfold aceito. destruct lido as [d|ex].
  - destruct (rotulos_unicos_b d); cbn [andb].
    + destruct (forallb _ required_cols); cbn [loja atual avisos].
      * split; [split; [reflexivity|split; [|reflexivity]]|].
        -- exists d. split; [reflexivity|apply lookup_insert_eq].
        -- intros r t Hr. rewrite lookup_insert_ne; [assumption|congruence].
      * split; [split; [reflexivity|eauto]|].
        intros r t Hr. rewrite lookup_insert_ne; [assumption|congruence].
    + cbn [loja atual avisos]. split; [split; [reflexivity|eauto]|auto].
  - cbn [loja atual avisos]. split; [split; [reflexivity|eauto]|auto].
Qed.

(** X13. Uploads keep the session sound: if the current table (when there
    is one) has the four required columns and numeric price columns, the
    same holds after any upload, accepted or not.  It holds at the start,
    when there is no current table. *)
Theorem X13_upload_keeps_session_valid (df_temp : ref)
    (lido : resultado DataFrame) (e : sessao) :
  loja e !! df_temp = None -> sessao_valida e ->
  sessao_valida (carregar_arquivo df_temp lido e) /\
  (forall h, sessao_valida (MkSessao h None [])).
Proof.
  intros Hf Hv. split; [|intros h r Hr; discriminate].
  rewrite carregar_arquivo_cases.
  assert (forall l, sessao_valida (MkSessao (loja e) (atual e) l)) as Hsame
    by (intros l r Hr; exact (Hv r Hr)).
  destruct lido as [d|ex]; [|apply Hsame].
  destruct (rotulos_unicos_b d) eqn:Eu; [|apply Hsame].
  destruct (forallb _ required_cols) eqn:Er.
  - intros r Hr. cbn [atual loja] in *. injection Hr as <-.
    exists (saida d). split; [apply lookup_insert_eq|]. split.
    + intros col Hc. rewrite columns_saida.
      rewrite forallb_forall in Er. specialize (Er col Hc).
      apply existsb_exists in Er as (x & Hx & E).
      apply String.eqb_eq in E. now subst.
    + intros j n s Hj Hp.
      apply saida_lookup_inv in Hj as (n0 & s0 & _ & Heq).
      unfold coluna_saida in Heq. cbn [fst snd] in Heq.
      injection Heq as -> ->. apply eh_preco_In in Hp. rewrite Hp.
      apply numerica_coluna_preco.
  - intros r Hr. cbn [atual loja] in *.
    destruct (Hv r Hr) as (t & Ht & H1 & H2).
    exists t. split; [|auto].
    rewrite lookup_insert_ne; [assumption|congruence].
Qed.

End Upload.

(** ** The launch flag *)

Section LaunchProps.

Local Open Scope string_scope.

Lemma lstrip_spaces a : todos Str.is_space a = true -> Str.lstrip a = "".
Proof.
  induction a as [|c a IH]; [reflexivity|].
  cbn [todos Str.lstrip]. rewrite andb_true_iff. intros [-> Ha]. auto.
Qed.

Lemma rstrip_spaces b : todos Str.is_space b = true -> Str.rstrip b = "".
Proof.
  induction b as [|c b IH]; [reflexivity|].
  cbn [todos Str.rstrip]. rewrite andb_true_iff. intros [Hc Hb].
  now rewrite IH, Hc.
Qed.

Lemma lstrip_app_spaces a t :
  todos Str.is_space a = true -> Str.lstrip (a ++ t) = Str.lstrip t.
Proof.
  induction a as [|c a IH]; [reflexivity|].
  cbn [todos]. rewrite andb_true_iff. intros [Hc Ha].
  rewrite append_cons. cbn [Str.lstrip]. rewrite Hc. auto.
Qed.

Lemma rstrip_app_spaces t b :
  todos Str.is_space b = true -> Str.rstrip (t ++ b) = Str.rstrip t.
Proof.
  intros Hb. induction t as [|c t IH].
  - rewrite append_nil_l. now apply rstrip_spaces.
  - rewrite append_cons. cbn [Str.rstrip]. now rewrite IH.
Qed.

Lemma strip_app_spaces_r s b :
  todos Str.is_space b = true -> Str.strip (s ++ b) = Str.strip s.
Proof.
  intros Hb. unfold Str.strip. induction s as [|c s IH].
  - rewrite append_nil_l. now rewrite (lstrip_spaces b Hb).
  - rewrite append_cons. cbn [Str.lstrip].
    destruct (Str.is_space c); [exact IH|].
    rewrite <- append_cons. now apply rstrip_app_spaces.
Qed.

(** Whitespace around a text does not count. *)
Lemma strip_around a s b :
  todos Str.is_space a = true -> todos Str.is_space b = true ->
  Str.strip (a ++ s ++ b) = Str.strip s.
Proof.
  intros Ha Hb. unfold Str.strip at 1. rewrite lstrip_app_spaces by assumption.
  fold (Str.strip (s ++ b)). now apply strip_app_spaces_r.
Qed.

Lemma minuscula_space c : Str.is_space (Launch.minuscula c) = Str.is_space c.
Proof. destruct c as [[] [] [] [] [] [] [] []]; reflexivity. Qed.

Lemma lstrip_lower s :
  Str.lstrip (Launch.lower s) = Launch.lower (Str.lstrip s).
Proof.
  unfold Launch.lower. induction s as [|c s IH]; [reflexivity|].
  cbn [mapear Str.lstrip]. rewrite minuscula_space.
  now destruct (Str.is_space c).
Qed.

Lemma rstrip_lower s :
  Str.rstrip (Launch.lower s) = Launch.lower (Str.rstrip s).
Proof.
  unfold Launch.lower. induction s as [|c s IH]; [reflexivity|].
  cbn [mapear Str.rstrip]. rewrite IH, minuscula_space.
  destruct (Str.rstrip s) as [|c' r]; cbn [mapear].
  - now destruct (Str.is_space c).
  - reflexivity.
Qed.

Lemma strip_lower s : Str.strip (Launch.lower s) = Launch.lower (Str.strip s).
Proof. unfold Str.strip. now rewrite lstrip_lower, rstrip_lower. Qed.

Lemma contains_point_app s1 s2 :
  Str.contains "." (s1 ++ String "." s2) = true.
Proof.
  induction s1 as [|c s1 IH].
  - rewrite append_nil_l, contains_char_cons. reflexivity.
  - rewrite append_cons, contains_char_cons, IH. apply orb_true_r.
Qed.

Lemma repr_point d : Str.contains "." (Num.repr d) = true.
Proof.
  unfold Num.repr. rewrite <- append_assoc.
  change ("." ++ ?x) with (String "." x). apply contains_point_app.
Qed.

Lemma mapa_keys t b :
  Launch.mapa !! t = Some b -> Str.contains "." t = false.
Proof.
  unfold Launch.mapa. intros H.
  apply elem_of_list_to_map_2 in H.
  repeat (apply elem_of_cons in H as [H|H];
          [injection H as -> _; reflexivity|]).
  now apply elem_of_nil in H.
Qed.

Lemma lower_num s : todos numchar s = true -> Launch.lower s = s.
Proof.
  apply (mapear_id_on numchar). intros c.
  destruct c as [[] [] [] [] [] [] [] []]; vm_compute; intros H;
    try discriminate; reflexivity.
Qed.

(** X14. Normalizing the launch column again changes nothing: a flag that
    already is a bool prints as ["True"] or ["False"] and is read back as
    itself.  (Lines 934-939 write the result into the session table, so
    every rerun of the page applies them to their own result.) *)
Theorem X14_is_launch_idempotent (col : list valor_py) :
  Launch.normalizar_is_launch (Launch.normalizar_is_launch col) =
  Launch.normalizar_is_launch col /\
  (forall b, Launch.is_launch (VBool b) = b).
Proof.
  assert (forall b, Launch.is_launch (VBool b) = b) as Hb
    by (intros []; vm_compute; reflexivity).
  split; [|exact Hb].
  unfold Launch.normalizar_is_launch. rewrite map_map.
  apply map_ext. intros v. now rewrite Hb.
Qed.

(** X15. A float cell is never a launch: the text of a float (["1.0"],
    ["nan"], ["inf"]) is no key of the dictionary, so even 1.0 maps to no
    entry and is filled with [False]; the missing marker is filled with
    [False] too.  The integer 1 and the text ["1"] are launches. *)
Theorem X15_float_flag_is_never_launch (x : flutuante) :
  Launch.is_launch (VFloat x) = false /\
  Launch.is_launch (VInt 1) = true /\
  Launch.is_launch (VTexto "1") = true.
Proof.
  split; [|split; vm_compute; reflexivity].
  destruct x as [d|[]|]; try (vm_compute; reflexivity).
  unfold Launch.is_launch. cbn [Launch.str_of].
  rewrite strip_no_space
    by (generalize (repr_numchar d); apply todos_impl;
        intros c Hc; apply numchar_plain, Hc).
  rewrite lower_num by apply repr_numchar.
  destruct (Launch.mapa !! Num.repr d) as [b|] eqn:E; [|reflexivity].
  apply mapa_keys in E. rewrite repr_point in E. discriminate.
Qed.

(** X16. For a text flag neither the whitespace around it nor the case of
    its letters matters. *)
Theorem X16_is_launch_ignores_case_and_blanks (a s b s' : string) :
  todos Str.is_space a = true -> todos Str.is_space b = true ->
  Launch.lower s' = Launch.lower s ->
  Launch.is_launch (VTexto (a ++ s' ++ b)) = Launch.is_launch (VTexto s).
Proof.
  intros Ha Hb Hl. unfold Launch.is_launch. cbn [Launch.str_of].
  rewrite strip_around by assumption.
  now rewrite <- !strip_lower, Hl.
Qed.

End LaunchProps.

(** ** The properties on example tables

    The examples run the program with the conversions of
    [conversoes_decimais]. *)

#[export] Existing Instance conversoes_decimais.

Lemma C1_witness :
  rotulos_unicos Exemplos.catalogo /\
  In (Str.strip " Initial_Price ") colunas_preco /\
  (exists d', executar Exemplos.catalogo = Ok d' /\
     d' !! 0%nat =
     Some ("Initial_Price"%string,
           [Exemplos.d5 5000; Exemplos.d5 1200; NaN; NaN; Exemplos.d5 1200]))
  /\ map (fun c => celula_de (analisar c))
       [Texto "1.200,00"; Texto "1200,00"; Texto "1200.00"; Texto "R$ 50,00"]
     = [Exemplos.d5 1200; Exemplos.d5 1200; Exemplos.d5 1200; Exemplos.d5 50].
Proof.
  assert (rotulos_unicos Exemplos.catalogo) as Hu
    by (apply rotulos_unicos_check; vm_compute; reflexivity).
  assert (In (Str.strip " Initial_Price ") colunas_preco) as Hp
    by (vm_compute; auto).
  split; [exact Hu|]. split; [exact Hp|].
  destruct (C1_price_cell_parsing Exemplos.catalogo 0 _ _ Hu eq_refl Hp)
    as [(d' & He & Hl) (_ & _ & _ & _ & _ & Hex)].
  split.
  - exists d'. split; [exact He|]. rewrite Hl. vm_compute. reflexivity.
  - apply Hex; vm_compute; reflexivity.
Defined.

Lemma C2_witness :
  rotulos_unicos Exemplos.duas_colunas /\
  (exists d', executar Exemplos.duas_colunas = Ok d' /\
     d' !! 0%nat =
     Some ("Initial_Price"%string, [Exemplos.d5 5000; Exemplos.d5 200]) /\
     d' !! 1%nat =
     Some ("Final_Price"%string, [Exemplos.d5 150; Exemplos.d5 300]))
  /\ Pd.mul mil (Exemplos.f64 1005 3) = Exemplos.f64 10049999999999999 13.
Proof.
  assert (rotulos_unicos Exemplos.duas_colunas) as Hu
    by (apply rotulos_unicos_check; vm_compute; reflexivity).
  split; [exact Hu|].
  assert (In (Str.strip "Initial_Price") colunas_preco) as Hp
    by (vm_compute; auto).
  pose proof (C2_mixed_magnitude Exemplos.duas_colunas 0 "Initial_Price"
                [Texto "5"; Texto "200"] Hu eq_refl Hp) as H.
  cbv zeta in H.
  assert (Pd.any_lt dez
            (Pd.dropna (map (fun c => celula_de (analisar c))
                          [Texto "5"; Texto "200"])) = true) as H1
    by (vm_compute; reflexivity).
  assert (Pd.any_gt cem
            (Pd.dropna (map (fun c => celula_de (analisar c))
                          [Texto "5"; Texto "200"])) = true) as H2
    by (vm_compute; reflexivity).
  destruct (H H1 H2) as [(d' & He & Hl & Ho) _].
  split; [|vm_compute; reflexivity].
  exists d'. split; [exact He|]. split.
  - rewrite Hl. vm_compute. reflexivity.
  - rewrite (Ho 1%nat "Final_Price"%string [Texto "150"; Texto "300"]);
      [|discriminate|reflexivity].
    vm_compute. reflexivity.
Defined.

Lemma C3_witness :
  rotulos_unicos Exemplos.pequenos /\
  exists d', executar Exemplos.pequenos = Ok d' /\
    d' !! 0%nat =
    Some ("Final_Price"%string,
          [Exemplos.d5 1000; Exemplos.d5 2000; Exemplos.d5 3000; NaN]).
Proof.
  assert (rotulos_unicos Exemplos.pequenos) as Hu
    by (apply rotulos_unicos_check; vm_compute; reflexivity).
  split; [exact Hu|].
  assert (In (Str.strip "Final_Price") colunas_preco) as Hp
    by (vm_compute; auto).
  destruct (C3_all_small_or_none Exemplos.pequenos 0 _ _ Hu eq_refl Hp)
    as [(d' & He & Hl) _].
  exists d'. split; [exact He|]. rewrite Hl. vm_compute. reflexivity.
Defined.

(** C4, as stated, fails: the claim is made for every table, and in the
    table whose labels [" Final_Price"] and ["Final_Price"] are the same
    once stripped the cell ["N/A"] of a price column is read as no number,
    yet the call raises. *)
Lemma C4_counterexample :
  Exemplos.rotulo_repetido !! 0%nat =
    Some (" Final_Price"%string, [Texto "N/A"]) /\
  In (Str.strip " Final_Price") colunas_preco /\
  analisar (Texto "N/A") = NaoNumero /\
  executar Exemplos.rotulo_repetido = Erro AttributeError.
Proof.
  split; [reflexivity|]. split; [vm_compute; auto|].
  split; vm_compute; reflexivity.
Qed.

Lemma C4_witness :
  rotulos_unicos Exemplos.catalogo /\
  analisar (Texto "N/A") = NaoNumero /\
  exists d', executar Exemplos.catalogo = Ok d' /\
    d' !! 0%nat =
    Some ("Initial_Price"%string,
          [Exemplos.d5 5000; Exemplos.d5 1200; NaN; NaN; Exemplos.d5 1200]).
Proof.
  assert (rotulos_unicos Exemplos.catalogo) as Hu
    by (apply rotulos_unicos_check; vm_compute; reflexivity).
  assert (In (Str.strip " Initial_Price ") colunas_preco) as Hp
    by (vm_compute; auto).
  assert (analisar (Texto "N/A") = NaoNumero) as Hn
    by (vm_compute; reflexivity).
  split; [exact Hu|]. split; [exact Hn|].
  destruct (C4_unparseable_cell Exemplos.catalogo 0 " Initial_Price "
              [Texto "R$ 5,00"; Texto "1.200,00"] [NaN; Texto "1200.00"]
              (Texto "N/A") Hu eq_refl Hp Hn)
    as [(d' & r1 & r2 & He & Hl & _) _].
  exists d'. split; [exact He|].
  rewrite (executar_unicos _ Hu) in He. injection He as <-.
  vm_compute. reflexivity.
Defined.








Lemma C10_witness :
  rotulos_unicos Exemplos.catalogo /\
  exists d' (s' : Series),
    executar Exemplos.catalogo = Ok d' /\
    d' !! 0%nat = Some ("Initial_Price"%string, s') /\
    s' !! 3%nat = Some NaN.
Proof.
  assert (rotulos_unicos Exemplos.catalogo) as Hu
    by (apply rotulos_unicos_check; vm_compute; reflexivity).
  assert (In (Str.strip " Initial_Price ") colunas_preco) as Hp
    by (vm_compute; auto).
  split; [exact Hu|].
  destruct (C10_missing_stays_missing Exemplos.catalogo 0 _ _ 3 Hu eq_refl
              Hp eq_refl) as [(d' & s' & He & Hl & Hi) _].
  exists d', s'. repeat split; assumption.
Defined.

Lemma X1_witness :
  executar Exemplos.catalogo = Ok (saida Exemplos.catalogo) /\
  map Pd.to_numeric
    [Exemplos.d5 150; Exemplos.d5 300; Exemplos.d5 1200; Exemplos.d5 50;
     Exemplos.d5 7000]
  = [Exemplos.d5 150; Exemplos.d5 300; Exemplos.d5 1200; Exemplos.d5 50;
     Exemplos.d5 7000].
Proof.
  assert (executar Exemplos.catalogo = Ok (saida Exemplos.catalogo)) as He
    by (vm_compute; reflexivity).
  assert (saida Exemplos.catalogo !! 2%nat =
          Some ("Final_Price"%string,
                [Exemplos.d5 150; Exemplos.d5 300; Exemplos.d5 1200;
                 Exemplos.d5 50; Exemplos.d5 7000])) as Hj
    by (vm_compute; reflexivity).
  split; [exact He|].
  exact (proj2 (X1_price_columns_numeric Exemplos.catalogo _ 2
                  "Final_Price" _ He Hj (or_intror (or_introl eq_refl)))).
Defined.


Lemma X3_witness :
  rotulos_unicos [("Final_Price"%string, [Exemplos.f64 12505 2; NaN])] /\
  exists d',
    executar [("Final_Price"%string, [Exemplos.f64 12505 2; NaN])] = Ok d' /\
    d' !! 0%nat = Some ("Final_Price"%string, [Exemplos.f64 12505 2; NaN]).
Proof.
  assert (rotulos_unicos
            [("Final_Price"%string, [Exemplos.f64 12505 2; NaN])]) as Hu
    by (apply rotulos_unicos_check; vm_compute; reflexivity).
  split; [exact Hu|].
  destruct (X3_clean_numeric_column_kept
              [("Final_Price"%string, [Exemplos.f64 12505 2; NaN])]
              0 "Final_Price" [Exemplos.f64 12505 2; NaN] Hu eq_refl)
    as (d' & He & Hl).
  - vm_compute. auto.
  - intros c [<-|[<-|[]]]; vm_compute; reflexivity.
  - intros c [<-|[<-|[]]]; vm_compute; reflexivity.
  - exists d'. split; [exact He|]. rewrite Hl. reflexivity.
Defined.


Lemma X5_witness :
  categorizar_faixa_preco float_simples (Numero (MkDec 12999 2)) =
  Some "100-150"%string.
Proof.
  destruct (X5_band_of_price float_simples (MkDec 12999 2)) as [H _].
  - vm_compute. discriminate.
  - reflexivity.
  - rewrite H. vm_compute. reflexivity.
Defined.

Lemma X6_witness :
  categorizar_faixa_preco float_simples (Numero (dec_of_Z 1000)) =
  Some "1000+"%string.
Proof.
  exact (proj1 (X6_band_thousand_plus float_simples (dec_of_Z 1000) eq_refl)).
Defined.

Lemma X7_witness :
  categorizar_faixa_preco float_simples (Numero (MkDec (-1) 2)) = None.
Proof.
  apply (X7_negative_or_missing_unlabelled float_simples (MkDec (-1) 2)).
  reflexivity.
Defined.

Lemma X8_witness : In "950-1000"%string ordem_faixas.
Proof.
  apply (X8_labels_in_ordem_faixas float_simples (Texto " 999.99 ")).
  vm_compute. reflexivity.
Defined.

Lemma X9_witness :
  categorizar_faixa_preco float_simples (Numero (MkDec 4999 2)) =
    ordem_faixas !! 0%nat /\
  categorizar_faixa_preco float_simples (Numero (dec_of_Z 50)) =
    ordem_faixas !! 1%nat /\
  categorizar_faixa_preco float_simples (Numero (dec_of_Z 123456)) =
    ordem_faixas !! 20%nat.
Proof.
  destruct (X9_bands_follow_prices float_simples (MkDec 4999 2) (dec_of_Z 50))
    as (H1 & H2 & _).
  - vm_compute. discriminate.
  - reflexivity.
  - destruct (X9_bands_follow_prices float_simples (dec_of_Z 50)
                (dec_of_Z 123456)) as (_ & H3 & _).
    + vm_compute. discriminate.
    + reflexivity.
    + split; [exact H1|]. split; [exact H2|exact H3].
Defined.

Lemma X10_witness :
  formatar_reais format_milhar_2f (Numero (MkDec 12345675 1)) =
  Texto "R$ 1.234.567,50".
Proof.
  destruct (X10_formatar_reais_swaps format_milhar_2f
              (Numero (MkDec 12345675 1)) (Finito (MkDec 12345675 1))
              eq_refl) as [H _].
  - vm_compute. reflexivity.
  - rewrite H. vm_compute. reflexivity.
Defined.

Lemma X11_witness :
  formatar_reais format_milhar_2f (Numero (MkDec (-98765) 2)) =
  Texto "R$ -987,65".
Proof.
  rewrite (X11_formatar_reais_layout format_milhar_2f
             (Numero (MkDec (-98765) 2)) (Finito (MkDec (-98765) 2))
             "-" "987" "65" eq_refl (or_intror eq_refl) eq_refl eq_refl).
  - vm_compute. reflexivity.
  - vm_compute. reflexivity.
Defined.

Lemma X12_witness :
  let e := MkSessao ∅ None [] in
  let e' := carregar_arquivo 1%positive (Ok Exemplos.completa) e in
  let e'' := carregar_arquivo 2%positive (Ok Exemplos.espaco_rigido) e' in
  atual e' = Some 1%positive /\ avisos e' = [Sucesso; Informacao] /\
  atual e'' = Some 1%positive /\
  exists resto, avisos e'' = [Sucesso; Informacao] ++ Falha :: resto.
Proof.
  intros e e' e''.
  destruct (X12_upload_replaces_iff_accepted 1%positive
              (Ok Exemplos.completa) e (lookup_empty _)) as [H _].
  change (aceito _) with true in H. cbv iota in H.
  destruct H as (H1 & _ & H3). fold e' in H1, H3.
  split; [exact H1|]. split; [exact H3|].
  assert (loja e' !! 2%positive = None) as Hf by (vm_compute; reflexivity).
  destruct (X12_upload_replaces_iff_accepted 2%positive
              (Ok Exemplos.espaco_rigido) e' Hf) as [H _].
  change (aceito _) with false in H. cbv iota in H.
  destruct H as (H4 & resto & H5). fold e'' in H4, H5.
  split; [exact (eq_trans H4 H1)|]. exists resto.
  exact (eq_trans H5 (f_equal (fun l => l ++ Falha :: resto) H3)).
Defined.

Lemma X13_witness :
  let e := MkSessao ∅ None [] in
  let e' := carregar_arquivo 1%positive (Ok Exemplos.completa) e in
  let e'' := carregar_arquivo 2%positive (Ok Exemplos.espaco_rigido) e' in
  atual e' = Some 1%positive /\ sessao_valida e' /\
  atual e'' = Some 1%positive /\ sessao_valida e''.
Proof.
  intros e e' e''.
  assert (sessao_valida e) as Hv0 by (intros r Hr; discriminate).
  pose proof (proj1 (X13_upload_keeps_session_valid 1%positive
                       (Ok Exemplos.completa) e (lookup_empty _) Hv0)) as Hv.
  assert (loja e' !! 2%positive = None) as Hf by (vm_compute; reflexivity).
  assert (atual e' = Some 1%positive) as H1 by (vm_compute; reflexivity).
  assert (atual e'' = Some 1%positive) as H2 by (vm_compute; reflexivity).
  split; [exact H1|]. split; [exact Hv|]. split; [exact H2|].
  exact (proj1 (X13_upload_keeps_session_valid 2%positive
                  (Ok Exemplos.espaco_rigido) e' Hf Hv)).
Defined.

Lemma X16_witness :
  Launch.is_launch (VTexto "  YeS ") = Launch.is_launch (VTexto "yes").
Proof.
  apply (X16_is_launch_ignores_case_and_blanks "  " "yes" " " "YeS");
    reflexivity.
Defined.

Lemma X17_witness :
  Pd.mul mil (Exemplos.d5 (-7)) = Exemplos.d5 (-7000).
Proof. apply (X17_integer_price_times_1000 (-7)). reflexivity. Defined.

(** With [conversoes_decimais] a finite number is read back from its own
    text as the float nearest to it. *)
Lemma analisar_decimal (d : Dec) :
  analisar (Numero d) = F64.arredondar (norm d).
Proof.
  unfold analisar. cbn [Pd.str_of escrever conversoes_decimais].
  rewrite limpar_texto_num, separadores_num by apply repr_numchar.
  cbn [ler conversoes_decimais]. unfold ler_decimal. now rewrite parse_repr.
Qed.
